(** * ESG score versus annual return: the notebook pipeline

    A shallow embedding of [term_project.ipynb]: the price lookup and the
    return computation (cell [c0a1d83d]), the merge and the numeric
    coercion (same cell), [describe_return], and the Pearson test with its
    decision (cell [1810575a]).

    Numbers are IEEE 754 binary64 values, as NumPy's [float64] has them;
    the operations are those of the Standard Library's executable
    specification [SpecFloat] at precision 53 and maximal exponent 1024, so
    a quotient by zero is an infinity and [nan] propagates, as in the
    notebook.  Sums are taken from left to right.

    A function that can raise returns a [result].  The pandas and SciPy
    calls of the notebook ([iloc], [merge], [to_numeric], [dropna], [var],
    [kurtosis], [pearsonr], ...) are written out as functions of the same
    name, with the defaults the notebook relies on made explicit where a
    property depends on them. *)

From Stdlib Require Import ZArith QArith Qabs List String Ascii Bool Lia.
From Stdlib Require Import Floats.SpecFloat.
Import ListNotations.

Local Open Scope Z_scope.

(* ------------------------------------------------------------------ *)
(** ** binary64 *)

Module Float64.

Definition prec : Z := 53.
Definition emax : Z := 1024.

Definition float : Type := spec_float.

Definition nan : float := S754_nan.
Definition inf (negative : bool) : float := S754_infinity negative.

Definition add : float -> float -> float := SFadd prec emax.
Definition sub : float -> float -> float := SFsub prec emax.
Definition mul : float -> float -> float := SFmul prec emax.
Definition div : float -> float -> float := SFdiv prec emax.
Definition sqrt : float -> float := SFsqrt prec emax.
Definition abs : float -> float := SFabs.

Definition eqb : float -> float -> bool := SFeqb.
Definition ltb : float -> float -> bool := SFltb.
Definition leb : float -> float -> bool := SFleb.

(** The nearest binary64 value of an integer. *)
Definition of_Z (z : Z) : float := binary_normalize prec emax z 0 false.
Definition of_nat (n : nat) : float := of_Z (Z.of_nat n).

(** The nearest binary64 value of the quotient of two positive integers. *)
Definition of_ratio (negative : bool) (num den : positive) : float :=
  let '(q, e, l) := SFdiv_core_binary prec emax (Zpos num) 0 (Zpos den) 0 in
  binary_round_aux prec emax negative q e l.

Definition isnan (x : float) : bool :=
  match x with S754_nan => true | _ => false end.

Definition is_zero (x : float) : bool :=
  match x with S754_zero _ => true | _ => false end.


(** The exact rational value of a finite number. *)
Definition to_Q (x : float) : option Q :=
  match x with
  | S754_zero _ => Some 0%Q
  | S754_finite s m e =>
      let v := match e with
               | Zneg k => Qmake (Zpos m) (2 ^ k)
               | _ => inject_Z (Zpos m * 2 ^ e)
               end in
      Some (if s then Qopp v else v)
  | _ => None
  end.

(** [within x c tol]: [x] is finite and [|x - c| <= tol], in exact
    rational arithmetic. *)
Definition within (x : float) (c tol : Q) : bool :=
  match to_Q x with
  | Some q => Qle_bool (Qabs (q - c)) tol
  | None => false
  end.

End Float64.

Import Float64.

Arguments of_Z : simpl never.
Arguments of_nat : simpl never.
Arguments of_ratio : simpl never.
Arguments add : simpl never.
Arguments sub : simpl never.
Arguments mul : simpl never.
Arguments div : simpl never.
Arguments sqrt : simpl never.

(* ------------------------------------------------------------------ *)
(** ** Python exceptions *)

(** [IndexError]: [.iloc[0]] on an empty selection.  [TypeError]: arithmetic
    on an object that is not a number.  [ValueError]: arrays of unequal
    length, a string the strict conversion cannot read, fewer than two
    pairs for [pearsonr]. *)
Variant exn : Type :=
  | IndexError
  | TypeError
  | ValueError.

Variant result (A : Type) : Type :=
  | Ok (a : A)
  | Raise (e : exn).

Arguments Ok {A} a.
Arguments Raise {A} e.

Definition bind {A B : Type} (m : result A) (k : A -> result B) : result B :=
  match m with
  | Ok a => k a
  | Raise e => Raise e
  end.

Notation "x <- m ;; k" := (bind m (fun x => k))
  (at level 61, m at next level, right associativity).

Fixpoint mapM {A B : Type} (f : A -> result B) (l : list A) : result (list B) :=
  match l with
  | [] => Ok []
  | a :: l' => b <- f a ;; bs <- mapM f l' ;; Ok (b :: bs)
  end.

(* ------------------------------------------------------------------ *)
(** ** Cells of an object column *)

(** [datetime64[ns]]: nanoseconds since the epoch. *)
Definition Timestamp : Type := Z.

(** What a cell of an [object] column or row can hold here: a NumPy
    [float64] scalar, a string read from the CSV file, or a timestamp. *)
Variant pyobj : Type :=
  | PyFloat (f : float)
  | PyStr (s : string)
  | PyTimestamp (t : Timestamp).

(** [a / b] and [a - b] on the objects of a row: defined on numbers only. *)
Definition truediv (a b : pyobj) : result pyobj :=
  match a, b with
  | PyFloat x, PyFloat y => Ok (PyFloat (div x y))
  | _, _ => Raise TypeError
  end.

Definition pysub (a b : pyobj) : result pyobj :=
  match a, b with
  | PyFloat x, PyFloat y => Ok (PyFloat (sub x y))
  | _, _ => Raise TypeError
  end.

(* ------------------------------------------------------------------ *)
(** ** The price table and the Return Calculator *)

(** [df_prices = pd.read_csv(price_data, parse_dates=["Date"])]: the
    column ["Date"] comes first and is a [datetime64] column, every other
    column is named by a ticker symbol and holds [float64] prices ([nan]
    where the file has none).  A row has one price per symbol. *)
Record PriceFrame : Type := {
  price_symbols : list string;
  price_rows : list (Timestamp * list float)
}.

(** A row taken out of the frame: a Series indexed by the column labels.
    Its dtype is [object] when the frame has price columns beside the date
    column, and [datetime64] when ["Date"] is the only column. *)
Variant dtype : Type := datetime64 | object.

Record Series : Type := {
  Series_dtype : dtype;
  items : list (string * pyobj)
}.

Definition index (s : Series) : list string := map fst (items s).
Definition values (s : Series) : list pyobj := map snd (items s).

(** Days since 1970-01-01 of a civil date, and the timestamp pandas
    reads from a string ["YYYY-MM-DD"]: midnight of that day. *)
Definition days_from_civil (y m d : Z) : Z :=
  let y' := if m <=? 2 then y - 1 else y in
  let era := y' / 400 in
  let yoe := y' - era * 400 in
  let doy := (153 * (if m >? 2 then m - 3 else m + 9) + 2) / 5 + d - 1 in
  let doe := yoe * 365 + yoe / 4 - yoe / 100 + doy in
  era * 146097 + doe - 719468.

Definition to_datetime (y m d : Z) : Timestamp :=
  days_from_civil y m d * 86400 * 1000000000.

(** [df_prices[df_prices["Date"] == d]] *)
Definition select_date (df : PriceFrame) (d : Timestamp) : PriceFrame :=
  {| price_symbols := price_symbols df;
     price_rows := filter (fun row => fst row =? d) (price_rows df) |}.

(** The dtype of a row of the frame. *)
Definition row_dtype (df : PriceFrame) : dtype :=
  match price_symbols df with
  | [] => datetime64
  | _ :: _ => object
  end.

(** [.iloc[0]]: the first row, as a Series over all the columns. *)
Definition iloc0 (df : PriceFrame) : result Series :=
  match price_rows df with
  | [] => Raise IndexError
  | (d, prices) :: _ =>
      Ok {| Series_dtype := row_dtype df;
            items := ("Date"%string, PyTimestamp d)
                       :: combine (price_symbols df) (map PyFloat prices) |}
  end.

(** [s[1:]]: the slice keeps the dtype. *)
Definition from1 (s : Series) : Series :=
  {| Series_dtype := Series_dtype s; items := skipn 1 (items s) |}.

(** The quotients of two rows of one frame, label by label: the rows
    carry the same index, so the alignment is the identity. *)
Fixpoint truediv_items (a b : list (string * pyobj))
  : result (list (string * pyobj)) :=
  match a, b with
  | (l, x) :: a', (_, y) :: b' =>
      z <- truediv x y ;; r <- truediv_items a' b' ;; Ok ((l, z) :: r)
  | _, _ => Ok []
  end.

(** [a / b]: element by element on [object] Series; a [datetime64]
    Series cannot be divided, even an empty one. *)
Definition series_truediv (a b : Series) : result Series :=
  match Series_dtype a, Series_dtype b with
  | object, object =>
      z <- truediv_items (items a) (items b) ;;
      Ok {| Series_dtype := object; items := z |}
  | _, _ => Raise TypeError
  end.

(** [s - c] for a scalar [c] *)
Definition series_sub_scalar (s : Series) (c : float) : result Series :=
  match Series_dtype s with
  | object =>
      z <- mapM (fun lx => z <- pysub (snd lx) (PyFloat c) ;; Ok (fst lx, z))
                (items s) ;;
      Ok {| Series_dtype := object; items := z |}
  | datetime64 => Raise TypeError
  end.

(** A row of [df_returns]; its three price columns are [object] columns. *)
Module Returns.
Record row : Type := {
  Symbol : string;
  StartPrice : pyobj;
  EndPrice : pyobj;
  AnnualReturn : pyobj
}.
End Returns.

Fixpoint zip_returns (sym : list string) (sp ep ar : list pyobj)
  : list Returns.row :=
  match sym, sp, ep, ar with
  | s :: sym', x :: sp', y :: ep', r :: ar' =>
      {| Returns.Symbol := s; Returns.StartPrice := x;
         Returns.EndPrice := y; Returns.AnnualReturn := r |}
        :: zip_returns sym' sp' ep' ar'
  | _, _, _, _ => []
  end.

(** [pd.DataFrame({"Symbol": ..., "StartPrice": ..., "EndPrice": ...,
    "AnnualReturn": ...})]: the four arrays must have one length. *)
Definition DataFrame_returns (sym : list string) (sp ep ar : list pyobj)
  : result (list Returns.row) :=
  let n := List.length sym in
  if ((List.length sp =? n) && (List.length ep =? n) && (List.length ar =? n))%nat
  then Ok (zip_returns sym sp ep ar)
  else Raise ValueError.

(** The first half of the preprocessing cell, for two target dates. *)
Definition return_calculator (df_prices : PriceFrame) (start_date end_date : Timestamp)
  : result (list Returns.row) :=
  start_prices <- iloc0 (select_date df_prices start_date) ;;
  end_prices <- iloc0 (select_date df_prices end_date) ;;
  ratio <- series_truediv (from1 end_prices) (from1 start_prices) ;;
  annual_return <- series_sub_scalar ratio (of_Z 1) ;;
  DataFrame_returns (index (from1 start_prices))
                    (values (from1 start_prices))
                    (values (from1 end_prices))
                    (values annual_return).

(** The notebook's two dates. *)
Definition start_date : Timestamp := to_datetime 2023 1 3.
Definition end_date : Timestamp := to_datetime 2024 8 30.

Definition df_returns (df_prices : PriceFrame) : result (list Returns.row) :=
  return_calculator df_prices start_date end_date.

(* ------------------------------------------------------------------ *)
(** ** Reading a number from a string *)

Module Parse.

Definition digit (c : ascii) : option Z :=
  let n := Z.of_nat (nat_of_ascii c) in
  if (48 <=? n) && (n <=? 57) then Some (n - 48) else None.

(** The longest prefix of digits: its value after [acc], how many
    digits were read, and the rest. *)
Fixpoint digits (l : list ascii) (acc : Z) (n : nat) : Z * nat * list ascii :=
  match l with
  | c :: l' =>
      match digit c with
      | Some d => digits l' (10 * acc + d) (S n)
      | None => (acc, n, l)
      end
  | [] => (acc, n, l)
  end.

Definition sign (l : list ascii) : bool * list ascii :=
  match l with
  | "-"%char :: l' => (true, l')
  | "+"%char :: l' => (false, l')
  | _ => (false, l)
  end.

Definition lower (c : ascii) : ascii :=
  let n := nat_of_ascii c in
  if ((65 <=? n) && (n <=? 90))%nat then ascii_of_nat (n + 32) else c.

(** [m * 10^e], rounded to the nearest binary64 value. *)
Definition of_decimal (negative : bool) (m e : Z) : float :=
  match m, e with
  | Zpos p, Zneg k => of_ratio negative p (10 ^ k)
  | Zpos p, _ => of_Z ((if negative then - m else m) * 10 ^ e)
  | _, _ => S754_zero negative
  end.

(** The blanks the conversion skips before and after a literal: space,
    tab, line feed, vertical tab, form feed, carriage return. *)
Definition blank (c : ascii) : bool :=
  let n := nat_of_ascii c in
  ((n =? 32) || ((9 <=? n) && (n <=? 13)))%nat.

Fixpoint skip_blanks (l : list ascii) : list ascii :=
  match l with
  | c :: l' => if blank c then skip_blanks l' else l
  | [] => []
  end.

(** Nothing but blanks is left. *)
Definition at_end (l : list ascii) : bool :=
  match skip_blanks l with
  | [] => true
  | _ :: _ => false
  end.

(** The exponent part and the end of the text: nothing, or [e] or [E], a
    sign and digits; then blanks only. *)
Definition exponent (l : list ascii) : option Z :=
  if at_end l then Some 0
  else
    match l with
    | [] => None
    | c :: l' =>
        if Ascii.eqb (lower c) "e" then
          let '(neg, l'') := sign l' in
          match digits l'' 0 0%nat with
          | (_, O, _) => None
          | (v, _, rest) =>
              if at_end rest then Some (if neg then - v else v) else None
          end
        else None
    end.

(** A decimal literal, with blanks before and after it: a sign, digits
    with or without a point (one digit at least), an exponent.  The value
    is taken rounded to nearest. *)
Definition literal (l : list ascii) : option float :=
  let '(negative, l0) := sign (skip_blanks l) in
  let '(ip, ni, l1) := digits l0 0 0%nat in
  let '(m, nf, l2) :=
    match l1 with
    | "."%char :: l1' => let '(m, nf, l2) := digits l1' ip 0%nat in (m, nf, l2)
    | _ => (ip, 0%nat, l1)
    end in
  match (ni + nf)%nat with
  | O => None
  | _ =>
      match exponent l2 with
      | Some e => Some (of_decimal negative m (e - Z.of_nat nf))
      | None => None
      end
  end.

(** The conversion of a literal; one too large for a binary64 value is
    an error, as a text that is no literal is. *)
Definition number (l : list ascii) : option float :=
  match literal l with
  | Some (S754_infinity _) => None
  | r => r
  end.

(** What [to_numeric] reads from a string: the empty string and ["nan"]
    are [nan], ["inf"] and ["infinity"] are infinities, anything else
    must be a decimal literal. *)
Definition float_of_string (s : string) : option float :=
  match list_ascii_of_string s with
  | [] => Some nan
  | l =>
      let '(neg, body) := sign l in
      let word := string_of_list_ascii (map lower body) in
      if String.eqb word "nan" then Some nan
      else if String.eqb word "inf" || String.eqb word "infinity" then Some (inf neg)
      else number l
  end.

End Parse.

(* ------------------------------------------------------------------ *)
(** ** The Merger/Cleaner *)

(** [df_esg = pd.read_csv(esg_data)]: of its columns the notebook uses
    ["Symbol"] and ["totalEsg"]; a [totalEsg] cell is a number, or a string
    when the file has text in that column. *)
Module Esg.
Record row : Type := {
  Symbol : string;
  totalEsg : pyobj
}.
End Esg.

(** A row of [df_final_filtered]. *)
Module Final.
Record row : Type := {
  Symbol : string;
  StartPrice : pyobj;
  EndPrice : pyobj;
  AnnualReturn : pyobj;
  PriceDifference : pyobj;
  totalEsg : pyobj
}.

Definition set_totalEsg (r : row) (v : pyobj) : row :=
  {| Symbol := Symbol r; StartPrice := StartPrice r; EndPrice := EndPrice r;
     AnnualReturn := AnnualReturn r; PriceDifference := PriceDifference r;
     totalEsg := v |}.

Definition set_AnnualReturn (r : row) (v : pyobj) : row :=
  {| Symbol := Symbol r; StartPrice := StartPrice r; EndPrice := EndPrice r;
     AnnualReturn := v; PriceDifference := PriceDifference r;
     totalEsg := totalEsg r |}.

Definition set_PriceDifference (r : row) (v : pyobj) : row :=
  {| Symbol := Symbol r; StartPrice := StartPrice r; EndPrice := EndPrice r;
     AnnualReturn := AnnualReturn r; PriceDifference := v;
     totalEsg := totalEsg r |}.
End Final.

(** [left.merge(right, on="Symbol")]: [how="inner"] is the default; every
    left row is paired with the right rows of the same symbol, in the
    order of the left keys. *)
Definition merge (left : list Esg.row) (right : list Returns.row)
  : list (Esg.row * Returns.row) :=
  flat_map
    (fun l => map (pair l)
                (filter (fun r => String.eqb (Returns.Symbol r) (Esg.Symbol l)) right))
    left.

(** [df_final["EndPrice"] - df_final["StartPrice"]] *)
Definition price_difference (df_final : list (Esg.row * Returns.row))
  : result (list pyobj) :=
  mapM (fun lr => pysub (Returns.EndPrice (snd lr)) (Returns.StartPrice (snd lr)))
       df_final.

(** [df_final[["Symbol", "StartPrice", "EndPrice", "AnnualReturn",
    "PriceDifference", "totalEsg"]]], the difference column being the one
    just assigned. *)
Definition project (df_final : list (Esg.row * Returns.row)) (diff : list pyobj)
  : list Final.row :=
  map (fun lrd =>
         let '(l, r, d) := lrd in
         {| Final.Symbol := Esg.Symbol l;
            Final.StartPrice := Returns.StartPrice r;
            Final.EndPrice := Returns.EndPrice r;
            Final.AnnualReturn := Returns.AnnualReturn r;
            Final.PriceDifference := d;
            Final.totalEsg := Esg.totalEsg l |})
      (combine df_final diff).

(** [pd.to_numeric(column, errors=...)] *)
Variant errors_policy : Type := errors_raise | errors_coerce.

Definition to_numeric_cell (errors : errors_policy) (o : pyobj) : result float :=
  match o with
  | PyFloat f => Ok f
  | PyStr s =>
      match Parse.float_of_string s, errors with
      | Some f, _ => Ok f
      | None, errors_coerce => Ok nan
      | None, errors_raise => Raise ValueError
      end
  | PyTimestamp _ =>
      match errors with
      | errors_coerce => Ok nan
      | errors_raise => Raise TypeError
      end
  end.

Definition to_numeric (errors : errors_policy) (column : list pyobj)
  : result (list float) :=
  mapM (to_numeric_cell errors) column.

(** [df[name] = column]: the new column is aligned on the row index; a row
    it has no value for gets [nan], a value beyond the last row is
    dropped. *)
Fixpoint setitem (set : Final.row -> pyobj -> Final.row)
    (df : list Final.row) (column : list float) : list Final.row :=
  match df with
  | [] => []
  | r :: df' =>
      match column with
      | x :: column' => set r (PyFloat x) :: setitem set df' column'
      | [] => set r (PyFloat nan) :: setitem set df' []
      end
  end.

(** The three [to_numeric] lines. *)
Definition coerce_numeric (df_final_filtered : list Final.row)
  : result (list Final.row) :=
  c <- to_numeric errors_coerce (map Final.totalEsg df_final_filtered) ;;
  let df := setitem Final.set_totalEsg df_final_filtered c in
  c <- to_numeric errors_coerce (map Final.AnnualReturn df) ;;
  let df := setitem Final.set_AnnualReturn df c in
  c <- to_numeric errors_coerce (map Final.PriceDifference df) ;;
  let df := setitem Final.set_PriceDifference df c in
  Ok df.

(** The second half of the preprocessing cell. *)
Definition merger_cleaner (df_esg : list Esg.row) (df_returns : list Returns.row)
  : result (list Final.row) :=
  let df_final := merge df_esg df_returns in
  diff <- price_difference df_final ;;
  let df_final_filtered := project df_final diff in
  coerce_numeric df_final_filtered.

(** The whole preprocessing cell: from the two tables to
    [df_final_filtered]. *)
Definition preprocessing (df_esg : list Esg.row) (df_prices : PriceFrame)
  : result (list Final.row) :=
  returns <- df_returns df_prices ;;
  merger_cleaner df_esg returns.

(* ------------------------------------------------------------------ *)
(** ** The Analyzer: descriptive statistics *)

(** A column of the cleaned frame as [float64] values; a cell that is not
    a number makes the arithmetic below fail. *)
Definition numeric (get : Final.row -> pyobj) (df : list Final.row)
  : result (list float) :=
  mapM (fun r => match get r with PyFloat f => Ok f | _ => Raise TypeError end) df.

(** [Series.dropna()] *)
Definition dropna (s : list float) : list float :=
  filter (fun x => negb (isnan x)) s.

Definition fsum (s : list float) : float :=
  fold_left add s (S754_zero false).

(** [Series.count()], [min()], [max()], [mean()]: missing values are
    skipped; with nothing left the three numbers are [nan]. *)
Definition Series_count (s : list float) : nat := List.length (dropna s).

Definition Series_min (s : list float) : float :=
  match dropna s with
  | [] => nan
  | x :: l => fold_left (fun m y => if ltb y m then y else m) l x
  end.

Definition Series_max (s : list float) : float :=
  match dropna s with
  | [] => nan
  | x :: l => fold_left (fun m y => if ltb m y then y else m) l x
  end.

Definition Series_mean (s : list float) : float :=
  let d := dropna s in div (fsum d) (of_nat (List.length d)).

Fixpoint insert_sorted (x : float) (l : list float) : list float :=
  match l with
  | [] => [x]
  | y :: l' => if leb x y then x :: l else y :: insert_sorted x l'
  end.

Definition sort (l : list float) : list float :=
  fold_right insert_sorted [] l.

(** [Series.median()]: the middle value of the sorted data, or the mean
    of the two middle values. *)
Definition Series_median (s : list float) : float :=
  let d := sort (dropna s) in
  let n := List.length d in
  match n with
  | O => nan
  | _ =>
      if Nat.even n
      then div (add (nth (n / 2 - 1) d nan) (nth (n / 2) d nan)) (of_Z 2)
      else nth (n / 2) d nan
  end.

Definition sq (x : float) : float := mul x x.

(** [Series.var(ddof)] and [Series.std(ddof)]: the squared deviations from
    the mean, summed and divided by [count - ddof]; [nan] when that
    divisor is not positive. *)
Definition Series_var (ddof : nat) (s : list float) : float :=
  let d := dropna s in
  let count := List.length d in
  if (count <=? ddof)%nat then nan
  else
    let avg := div (fsum d) (of_nat count) in
    div (fsum (map (fun x => sq (sub avg x)) d)) (of_nat (count - ddof)).

Definition Series_std (ddof : nat) (s : list float) : float :=
  sqrt (Series_var ddof s).

(** [scipy.stats.moment]: the mean of the [k]th powers of the deviations
    from the mean, [k] being 2, 3 or 4 here. *)
Fixpoint fpow (x : float) (k : nat) : float :=
  match k with
  | O => of_Z 1
  | S O => x
  | S k' => mul x (fpow x k')
  end.

Definition np_mean (a : list float) : float :=
  div (fsum a) (of_nat (List.length a)).

Definition moment (a : list float) (k : nat) : float :=
  let mean := np_mean a in
  np_mean (map (fun x => fpow (sub x mean) k) a).

(** The machine epsilon of binary64, [2^-52]. *)
Definition eps : float := S754_finite false 4503599627370496 (-104).

(** [m2 <= (eps * mean)^2]: the data are too close to constant. *)
Definition nearly_constant (a : list float) : bool :=
  leb (moment a 2) (sq (mul eps (np_mean a))).

(** [scipy.stats.skew(a)] with [bias=True]; [m2 ** 1.5] is taken as
    [m2 * sqrt m2]. *)
Definition stats_skew (a : list float) : float :=
  let m2 := moment a 2 in
  let m3 := moment a 3 in
  if nearly_constant a then nan else div m3 (mul m2 (sqrt m2)).

(** [scipy.stats.kurtosis(a, fisher)] with [bias=True]. *)
Definition stats_kurtosis (fisher : bool) (a : list float) : float :=
  let m2 := moment a 2 in
  let m4 := moment a 4 in
  let vals := if nearly_constant a then nan else div m4 (sq m2) in
  if fisher then sub vals (of_Z 3) else vals.

(** The one-row frame [describe_return] returns. *)
Record SummaryStats : Type := {
  Label : string;
  Count : nat;
  Min : float;
  Max : float;
  Range : float;
  Mean : float;
  Median : float;
  Variance : float;
  Std_Dev : float;
  Skewness : float;
  Kurtosis : float
}.

(** The statistics of data that hold no missing value. *)
Definition stats_dict (label : string) (data : list float) : SummaryStats :=
  {| Label := label;
     Count := Series_count data;
     Min := Series_min data;
     Max := Series_max data;
     Range := sub (Series_max data) (Series_min data);
     Mean := Series_mean data;
     Median := Series_median data;
     Variance := Series_var 1 data;
     Std_Dev := Series_std 1 data;
     Skewness := stats_skew data;
     Kurtosis := stats_kurtosis true data |}.

(** [describe_return(group, label)]; [var()] and [std()] are called with
    their default [ddof=1], [kurtosis] with its default [fisher=True]. *)
Definition describe_return (group : list Final.row) (label : string)
  : result SummaryStats :=
  column <- numeric Final.AnnualReturn group ;;
  let data := dropna column in
  Ok (stats_dict label data).

(* ------------------------------------------------------------------ *)
(** ** The Analyzer: Pearson's test and the decision *)

(** [(a == a[0]).all()] *)
Definition all_equal_first (a : list float) : bool :=
  match a with
  | [] => true
  | x0 :: _ => forallb (fun x => eqb x x0) a
  end.

(** [np.sign] *)
Definition np_sign (x : float) : float :=
  match x with
  | S754_nan => nan
  | S754_zero _ => S754_zero false
  | S754_infinity s | S754_finite s _ _ => if s then of_Z (-1) else of_Z 1
  end.

(** Python's [min(a, b)] and [max(a, b)]: the first argument unless the
    second is strictly smaller (larger). *)
Definition py_min (a b : float) : float := if ltb b a then b else a.
Definition py_max (a b : float) : float := if ltb a b then b else a.

Definition dot (a b : list float) : float :=
  fsum (map (fun xy => mul (fst xy) (snd xy)) (combine a b)).

(** [np.isfinite] *)
Definition isfinite (x : float) : bool :=
  match x with
  | S754_zero _ | S754_finite _ _ _ => true
  | S754_infinity _ | S754_nan => false
  end.

(** BLAS [nrm2], the Euclidean norm of finite data: the sum of the
    squares is taken relative to the largest magnitude met so far, so that
    no square overflows. *)
Definition nrm2_step (st : float * float) (x : float) : float * float :=
  let '(scale, ssq) := st in
  if is_zero x then st
  else
    let absxi := abs x in
    if ltb scale absxi
    then (absxi, add (of_Z 1) (mul ssq (sq (div scale absxi))))
    else (scale, add ssq (sq (div absxi scale))).

Definition norm (a : list float) : float :=
  let '(scale, ssq) := fold_left nrm2_step a (S754_zero false, of_Z 1) in
  mul scale (sqrt ssq).

(** [scipy.linalg.norm(a)], as SciPy up to 1.13 has it: [check_finite] is
    on by default and refuses an array that holds [nan] or an infinity. *)
Definition linalg_norm (a : list float) : result float :=
  if forallb isfinite a then Ok (norm a) else Raise ValueError.

(** The literal [0.05]. *)
Definition alpha : float := Parse.of_decimal false 5 (-2).

Definition reject_message : string :=
  "Reject H0: There is a relationship between ESG scores and stock prices (annual return).".
Definition fail_to_reject_message : string :=
  " Fail to Reject H0: There is no relationship between ESG scores and stock prices (annual return).".

(** The [if p_value <= 0.05] of the last cell: the line it prints. *)
Definition decision (p_value : float) : string :=
  if leb p_value alpha then reject_message else fail_to_reject_message.

Section Pearson.

(** [scipy.special.btdtr a b x], the regularised incomplete beta
    integral, is not computed here: the test is stated for any such
    function.  The p-value is written with it, as twice the integral at
    [(1 - |r|)/2]; the releases that take it from the survival function
    of [stats.beta(ab, ab, loc=-1, scale=2)] at [|r|] compute the same
    tail. *)
Variable btdtr : float -> float -> float -> float.

(** [scipy.stats.pearsonr(x, y)], as SciPy up to 1.13 has it: the
    checks of the lengths, of a constant input and of two pairs, then the
    normalised deviations, their dot product clipped to [-1, 1], and the
    two-sided p-value of the beta distribution with [a = b = n/2 - 1]. *)
Definition pearsonr (x y : list float) : result (float * float) :=
  let n := List.length x in
  if negb (n =? List.length y)%nat then Raise ValueError
  else if (n <? 2)%nat then Raise ValueError
  else if all_equal_first x || all_equal_first y then Ok (nan, nan)
  else if (n =? 2)%nat then
    Ok (mul (np_sign (sub (nth 1 x nan) (nth 0 x nan)))
            (np_sign (sub (nth 1 y nan) (nth 0 y nan))),
        of_Z 1)
  else
    let xmean := np_mean x in
    let ymean := np_mean y in
    let xm := map (fun v => sub v xmean) x in
    let ym := map (fun v => sub v ymean) y in
    normxm <- linalg_norm xm ;;
    normym <- linalg_norm ym ;;
    let r := dot (map (fun v => div v normxm) xm) (map (fun v => div v normym) ym) in
    let r := py_max (py_min r (of_Z 1)) (of_Z (-1)) in
    let ab := sub (div (of_nat n) (of_Z 2)) (of_Z 1) in
    Ok (r, mul (of_Z 2) (btdtr ab ab (mul (of_ratio false 1 2) (sub (of_Z 1) (abs r))))).

(** The last cell: r, the p-value and the printed verdict. *)
Definition correlation_test (df_final_filtered : list Final.row)
  : result (float * float * string) :=
  x <- numeric Final.totalEsg df_final_filtered ;;
  y <- numeric Final.AnnualReturn df_final_filtered ;;
  rp <- pearsonr x y ;;
  Ok (fst rp, snd rp, decision (snd rp)).

End Pearson.

(* ------------------------------------------------------------------ *)
(** ** Auxiliary definitions for the properties *)

(** The records the calculator builds from a start row and an end row. *)
Fixpoint rows_of (sym : list string) (ps pe : list float) : list Returns.row :=
  match sym, ps, pe with
  | s :: sym', p :: ps', q :: pe' =>
      {| Returns.Symbol := s;
         Returns.StartPrice := PyFloat p;
         Returns.EndPrice := PyFloat q;
         Returns.AnnualReturn := PyFloat (sub (div q p) (of_Z 1)) |}
        :: rows_of sym' ps' pe'
  | _, _, _ => []
  end.

(** The first row of a given date. *)
Definition first_row (df : PriceFrame) (d : Timestamp) : option (list float) :=
  match filter (fun row => fst row =? d) (price_rows df) with
  | [] => None
  | (_, ps) :: _ => Some ps
  end.

(** The quotient and the difference, on the rows of one frame. *)
Fixpoint ratio_of (sym : list string) (pe ps : list float)
  : list (string * pyobj) :=
  match sym, pe, ps with
  | s :: sym', q :: pe', p :: ps' => (s, PyFloat (div q p)) :: ratio_of sym' pe' ps'
  | _, _, _ => []
  end.

(** Every row of the frame has one price per symbol. *)
Definition rectangular (df : PriceFrame) : Prop :=
  Forall (fun row => List.length (snd row) = List.length (price_symbols df))
         (price_rows df).

(** A cell is a finite number within [tol] of [c]. *)
Definition cell_within (o : pyobj) (c tol : Q) : bool :=
  match o with
  | PyFloat f => within f c tol
  | _ => false
  end.

(** The example of the notebook's introduction, with a trading day in
    between. *)
Definition intro_prices : PriceFrame :=
  {| price_symbols := ["AAPL"; "TSLA"]%string;
     price_rows := [ (to_datetime 2023 1 3, [of_Z 150; of_Z 800]);
                     (to_datetime 2023 1 4, [of_Z 152; of_Z 790]);
                     (to_datetime 2024 8 30, [of_Z 160; of_Z 810]) ] |}.

Definition intro_AAPL : Returns.row :=
  {| Returns.Symbol := "AAPL";
     Returns.StartPrice := PyFloat (of_Z 150);
     Returns.EndPrice := PyFloat (of_Z 160);
     Returns.AnnualReturn := PyFloat (sub (div (of_Z 160) (of_Z 150)) (of_Z 1)) |}.

Definition intro_TSLA : Returns.row :=
  {| Returns.Symbol := "TSLA";
     Returns.StartPrice := PyFloat (of_Z 800);
     Returns.EndPrice := PyFloat (of_Z 810);
     Returns.AnnualReturn := PyFloat (sub (div (of_Z 810) (of_Z 800)) (of_Z 1)) |}.

(** What [errors="coerce"] makes of a cell. *)
Definition coerced (o : pyobj) : float :=
  match o with
  | PyFloat f => f
  | PyStr s =>
      match Parse.float_of_string s with
      | Some f => f
      | None => nan
      end
  | PyTimestamp _ => nan
  end.




(** A row after the three [to_numeric] lines. *)
Definition clean_row (r : Final.row) : Final.row :=
  {| Final.Symbol := Final.Symbol r;
     Final.StartPrice := Final.StartPrice r;
     Final.EndPrice := Final.EndPrice r;
     Final.AnnualReturn := PyFloat (coerced (Final.AnnualReturn r));
     Final.PriceDifference := PyFloat (coerced (Final.PriceDifference r));
     Final.totalEsg := PyFloat (coerced (Final.totalEsg r)) |}.

(** The two price cells of a return record are numbers. *)
Definition priced (r : Returns.row) : Prop :=
  exists p q, Returns.StartPrice r = PyFloat p /\ Returns.EndPrice r = PyFloat q.

(** [EndPrice - StartPrice] of a priced record. *)
Definition diff_cell (r : Returns.row) : pyobj :=
  match Returns.EndPrice r, Returns.StartPrice r with
  | PyFloat q, PyFloat p => PyFloat (sub q p)
  | _, _ => PyFloat nan
  end.

(** The projected row of a joined pair. *)
Definition joined_row (lr : Esg.row * Returns.row) : Final.row :=
  {| Final.Symbol := Esg.Symbol (fst lr);
     Final.StartPrice := Returns.StartPrice (snd lr);
     Final.EndPrice := Returns.EndPrice (snd lr);
     Final.AnnualReturn := Returns.AnnualReturn (snd lr);
     Final.PriceDifference := diff_cell (snd lr);
     Final.totalEsg := Esg.totalEsg (fst lr) |}.

(** An ESG table for the example: TSLA has no row, MSFT has no prices. *)
Definition intro_esg : list Esg.row :=
  [ {| Esg.Symbol := "MSFT"; Esg.totalEsg := PyFloat (of_Z 15) |};
    {| Esg.Symbol := "AAPL"; Esg.totalEsg := PyFloat (of_Z 17) |} ]%string.






(** Two tables with missing data: C has the text ["N/A"] for its score
    and E has no start price. *)
Definition missing_prices : PriceFrame :=
  {| price_symbols := ["A"; "B"; "C"; "D"; "E"; "F"]%string;
     price_rows :=
       [ (to_datetime 2023 1 3,
          [of_Z 100; of_Z 100; of_Z 100; of_Z 100; nan; of_Z 100]);
         (to_datetime 2024 8 30,
          [of_Z 300; of_Z 200; of_Z 800; of_Z 500; of_Z 600; of_Z 400]) ] |}.

Definition missing_esg : list Esg.row :=
  [ {| Esg.Symbol := "A"; Esg.totalEsg := PyStr "1" |};
    {| Esg.Symbol := "B"; Esg.totalEsg := PyStr "2" |};
    {| Esg.Symbol := "C"; Esg.totalEsg := PyStr "N/A" |};
    {| Esg.Symbol := "D"; Esg.totalEsg := PyStr "3" |};
    {| Esg.Symbol := "E"; Esg.totalEsg := PyStr "4" |};
    {| Esg.Symbol := "F"; Esg.totalEsg := PyStr "5" |} ]%string.

(** What the preprocessing makes of them. *)
Definition cleaned_row (sym : string) (sp ep ret esg : float) : Final.row :=
  {| Final.Symbol := sym;
     Final.StartPrice := PyFloat sp;
     Final.EndPrice := PyFloat ep;
     Final.AnnualReturn := PyFloat ret;
     Final.PriceDifference := PyFloat (sub ep sp);
     Final.totalEsg := PyFloat esg |}.

Definition missing_frame : list Final.row :=
  [ cleaned_row "A" (of_Z 100) (of_Z 300) (of_Z 2) (of_Z 1);
    cleaned_row "B" (of_Z 100) (of_Z 200) (of_Z 1) (of_Z 2);
    cleaned_row "C" (of_Z 100) (of_Z 800) (of_Z 7) nan;
    cleaned_row "D" (of_Z 100) (of_Z 500) (of_Z 4) (of_Z 3);
    cleaned_row "E" nan (of_Z 600) nan (of_Z 4);
    cleaned_row "F" (of_Z 100) (of_Z 400) (of_Z 3) (of_Z 5) ].

(** Its two numeric columns. *)
Definition missing_totalEsg : list float :=
  [of_Z 1; of_Z 2; nan; of_Z 3; of_Z 4; of_Z 5].
Definition missing_AnnualReturn : list float :=
  [of_Z 2; of_Z 1; of_Z 7; of_Z 4; nan; of_Z 3].

(** The r that [pearsonr] returns for two samples, when it returns. *)
Definition pearson_r (x y : list float) : float :=
  if all_equal_first x || all_equal_first y then nan
  else if (List.length x =? 2)%nat then
    mul (np_sign (sub (nth 1 x nan) (nth 0 x nan)))
        (np_sign (sub (nth 1 y nan) (nth 0 y nan)))
  else
    let xmean := np_mean x in
    let ymean := np_mean y in
    let xm := map (fun v => sub v xmean) x in
    let ym := map (fun v => sub v ymean) y in
    let normxm := norm xm in
    let normym := norm ym in
    let r := dot (map (fun v => div v normxm) xm) (map (fun v => div v normym) ym) in
    py_max (py_min r (of_Z 1)) (of_Z (-1)).

(** The pairs of two columns in which neither value is missing: the
    exclusion the specification describes for the correlation. *)
Definition complete_pairs (x y : list float) : list (float * float) :=
  filter (fun xy => negb (isnan (fst xy)) && negb (isnan (snd xy))) (combine x y).

Definition has_nan (a : list float) : bool := existsb isnan a.

(** The dates of the price table, in file order. *)
Definition dates (df : PriceFrame) : list Timestamp := map fst (price_rows df).

(** A return record exists for the symbol. *)
Definition has_return (rets : list Returns.row) (sym : string) : bool :=
  existsb (fun r => String.eqb (Returns.Symbol r) sym) rets.

(** The price table reduced to the rows of two dates. *)
Definition keep_dates (df : PriceFrame) (s e : Timestamp) : PriceFrame :=
  {| price_symbols := price_symbols df;
     price_rows := filter (fun row => (fst row =? s) || (fst row =? e))
                          (price_rows df) |}.

(** A price table that stops before the end date. *)
Definition january_prices : PriceFrame :=
  {| price_symbols := ["AAPL"; "TSLA"]%string;
     price_rows := [ (to_datetime 2023 1 3, [of_Z 150; of_Z 800]);
                     (to_datetime 2023 1 4, [of_Z 152; of_Z 790]) ] |}.

(** A price table whose only column is ["Date"]. *)
Definition date_only_prices : PriceFrame :=
  {| price_symbols := [];
     price_rows := [ (to_datetime 2023 1 3, []); (to_datetime 2024 8 30, []) ] |}.

(** The statistics of a column without a single value. *)
Definition empty_stats (label : string) : SummaryStats :=
  {| Label := label; Count := 0;
     Min := nan; Max := nan; Range := nan; Mean := nan; Median := nan;
     Variance := nan; Std_Dev := nan; Skewness := nan; Kurtosis := nan |}.

(** A price table in which the start date occurs twice. *)
Definition repeated_prices : PriceFrame :=
  {| price_symbols := ["AAPL"; "TSLA"]%string;
     price_rows := [ (to_datetime 2023 1 2, [of_Z 149; of_Z 795]);
                     (to_datetime 2023 1 3, [of_Z 150; of_Z 800]);
                     (to_datetime 2023 1 3, [of_Z 151; of_Z 801]);
                     (to_datetime 2024 8 30, [of_Z 160; of_Z 810]) ] |}.

(** [r] is a correlation coefficient: between -1 and 1 in the order of
    binary64. *)
Definition in_unit_range (r : float) : bool :=
  leb (of_Z (-1)) r && leb r (of_Z 1).

(* ------------------------------------------------------------------ *)
(** * Properties *)

(** ** The Return Calculator *)

(** The head of a selection is a row of the table, dated as asked. *)
Lemma select_head (rows : list (Timestamp * list float)) d d' ps rest :
  filter (fun row => fst row =? d) rows = (d', ps) :: rest ->
  d' = d /\ In (d, ps) rows.
Proof.
  intros E.
  assert (H : In (d', ps) (filter (fun row => fst row =? d) rows))
    by (rewrite E; now left).
  apply filter_In in H. destruct H as [H1 H2]. simpl in H2.
  apply Z.eqb_eq in H2. now subst.
Qed.

Lemma first_row_In df d ps :
  first_row df d = Some ps -> In (d, ps) (price_rows df).
Proof.
  unfold first_row.
  destruct (filter _ _) as [|[d' ps'] rest] eqn:E; [discriminate|].
  intros [= <-]. now apply select_head in E.
Qed.

Lemma first_row_None df d :
  ~ In d (map fst (price_rows df)) -> first_row df d = None.
Proof.
  intros H. unfold first_row.
  destruct (filter _ _) as [|[d' ps'] rest] eqn:E; [reflexivity|].
  exfalso. apply H. apply select_head in E. destruct E as [_ E].
  now apply (in_map fst) in E.
Qed.

Lemma iloc0_select df d :
  iloc0 (select_date df d) =
  match first_row df d with
  | None => Raise IndexError
  | Some ps =>
      Ok {| Series_dtype := row_dtype df;
            items := ("Date"%string, PyTimestamp d)
                       :: combine (price_symbols df) (map PyFloat ps) |}
  end.
Proof.
  unfold iloc0, first_row, select_date. simpl.
  destruct (filter _ _) as [|[d' ps'] rest] eqn:E; [reflexivity|].
  apply select_head in E. now destruct E as [-> _].
Qed.

Lemma truediv_items_rows sym : forall pe ps,
  truediv_items (combine sym (map PyFloat pe)) (combine sym (map PyFloat ps))
  = Ok (ratio_of sym pe ps).
Proof.
  induction sym as [|s sym IH]; intros [|q pe] [|p ps]; simpl; try reflexivity.
  now rewrite IH.
Qed.

Lemma sub_scalar_ratio c sym : forall pe ps,
  mapM (fun lx => z <- pysub (snd lx) (PyFloat c) ;; Ok (fst lx, z))
       (ratio_of sym pe ps)
  = Ok (map (fun lx => (fst lx, match snd lx with
                                 | PyFloat x => PyFloat (sub x c)
                                 | o => o
                                 end)) (ratio_of sym pe ps)).
Proof.
  induction sym as [|s sym IH]; intros [|q pe] [|p ps]; simpl; try reflexivity.
  now rewrite IH.
Qed.

Lemma zip_returns_rows sym : forall ps pe,
  zip_returns (map fst (combine sym (map PyFloat ps)))
              (map snd (combine sym (map PyFloat ps)))
              (map snd (combine sym (map PyFloat pe)))
              (map snd (map (fun lx => (fst lx, match snd lx with
                                                | PyFloat x => PyFloat (sub x (of_Z 1))
                                                | o => o
                                                end)) (ratio_of sym pe ps)))
  = rows_of sym ps pe.
Proof.
  induction sym as [|s sym IH]; intros [|p ps] [|q pe]; simpl; try reflexivity.
  now rewrite IH.
Qed.

(** The calculator on the first rows of the two dates. *)
Lemma return_calculator_rows df s e ps pe :
  first_row df s = Some ps -> first_row df e = Some pe ->
  return_calculator df s e
  = match row_dtype df with
    | datetime64 => Raise TypeError
    | object =>
        DataFrame_returns
          (map fst (combine (price_symbols df) (map PyFloat ps)))
          (map snd (combine (price_symbols df) (map PyFloat ps)))
          (map snd (combine (price_symbols df) (map PyFloat pe)))
          (map snd (map (fun lx => (fst lx, match snd lx with
                                            | PyFloat x => PyFloat (sub x (of_Z 1))
                                            | o => o
                                            end))
                        (ratio_of (price_symbols df) pe ps)))
    end.
Proof.
  intros Hs He. unfold return_calculator. rewrite !iloc0_select, Hs, He.
  cbn [bind]. unfold series_truediv, series_sub_scalar, from1, index, values.
  cbn [Series_dtype items skipn].
  destruct (row_dtype df); [reflexivity|].
  rewrite truediv_items_rows. cbn [bind Series_dtype items].
  rewrite sub_scalar_ratio. reflexivity.
Qed.

(** What the calculator returns when it returns. *)
Lemma return_calculator_Ok df s e rets :
  return_calculator df s e = Ok rets ->
  exists ps pe,
    first_row df s = Some ps /\ first_row df e = Some pe /\
    rets = rows_of (price_symbols df) ps pe.
Proof.
  intros H.
  destruct (first_row df s) as [ps|] eqn:Hs.
  - destruct (first_row df e) as [pe|] eqn:He.
    + rewrite (return_calculator_rows _ _ _ _ _ Hs He) in H.
      destruct (row_dtype df); [discriminate|].
      unfold DataFrame_returns in H.
      destruct (_ && _)%bool; [|discriminate].
      injection H as <-. exists ps, pe. repeat split.
      apply zip_returns_rows.
    + revert H. unfold return_calculator. rewrite !iloc0_select, Hs, He.
      discriminate.
  - revert H. unfold return_calculator. rewrite !iloc0_select, Hs.
    discriminate.
Qed.

(** It returns only for a table with a price column. *)
Lemma return_calculator_has_symbols df s e rets :
  return_calculator df s e = Ok rets -> price_symbols df <> [].
Proof.
  intros H. destruct (return_calculator_Ok _ _ _ _ H) as (ps & pe & Hs & He & _).
  rewrite (return_calculator_rows _ _ _ _ _ Hs He) in H.
  unfold row_dtype in H. now destruct (price_symbols df).
Qed.

Lemma rows_of_In sym : forall ps pe r,
  In r (rows_of sym ps pe) ->
  exists p q, In p ps /\ In q pe /\ In (Returns.Symbol r) sym /\
    Returns.StartPrice r = PyFloat p /\ Returns.EndPrice r = PyFloat q /\
    Returns.AnnualReturn r = PyFloat (sub (div q p) (of_Z 1)).
Proof.
  induction sym as [|s sym IH]; intros [|p ps] [|q pe] r; simpl; try tauto.
  intros [<-|H].
  - exists p, q. simpl. tauto.
  - destruct (IH _ _ _ H) as (p' & q' & ? & ? & ? & ?).
    exists p', q'. tauto.
Qed.

(** One record per symbol, in the order of the columns. *)
Lemma rows_of_symbols sym : forall ps pe,
  List.length ps = List.length sym -> List.length pe = List.length sym ->
  map Returns.Symbol (rows_of sym ps pe) = sym.
Proof.
  induction sym as [|s sym IH]; intros [|p ps] [|q pe]; simpl; try discriminate;
    auto.
  intros [= Hp] [= Hq]. now rewrite IH.
Qed.

Lemma ratio_of_length sym : forall pe ps,
  List.length ps = List.length sym -> List.length pe = List.length sym ->
  List.length (ratio_of sym pe ps) = List.length sym.
Proof.
  induction sym as [|s sym IH]; intros [|q pe] [|p ps]; simpl; try discriminate; auto.
Qed.

(** On a rectangular frame that has a price column and both dates the
    calculator returns, with one record for each symbol. *)
Lemma return_calculator_total df s e ps pe :
  rectangular df -> price_symbols df <> [] ->
  first_row df s = Some ps -> first_row df e = Some pe ->
  return_calculator df s e = Ok (rows_of (price_symbols df) ps pe)
  /\ map Returns.Symbol (rows_of (price_symbols df) ps pe) = price_symbols df.
Proof.
  intros Hr Hn Hs He.
  assert (Ls : List.length ps = List.length (price_symbols df)).
  { apply first_row_In in Hs. unfold rectangular in Hr.
    rewrite Forall_forall in Hr. apply (Hr _ Hs). }
  assert (Le : List.length pe = List.length (price_symbols df)).
  { apply first_row_In in He. unfold rectangular in Hr.
    rewrite Forall_forall in Hr. apply (Hr _ He). }
  split; [|now apply rows_of_symbols].
  rewrite (return_calculator_rows _ _ _ _ _ Hs He).
  unfold row_dtype. destruct (price_symbols df) as [|s0 sym] eqn:E; [congruence|].
  rewrite <- E in *.
  unfold DataFrame_returns.
  rewrite !length_map, !length_combine, !length_map, ratio_of_length by assumption.
  rewrite Ls, Le, Nat.min_id, Nat.eqb_refl. simpl.
  f_equal. apply zip_returns_rows.
Qed.

(** With ["Date"] as its only column the table has no price to divide:
    the division of the two [datetime64] rows raises. *)
Lemma return_calculator_date_only df s e :
  price_symbols df = [] -> In s (map fst (price_rows df)) ->
  In e (map fst (price_rows df)) ->
  return_calculator df s e = Raise TypeError.
Proof.
  intros Hn Hs He.
  destruct (first_row df s) as [ps|] eqn:Fs.
  - destruct (first_row df e) as [pe|] eqn:Fe.
    + rewrite (return_calculator_rows _ _ _ _ _ Fs Fe).
      unfold row_dtype. now rewrite Hn.
    + exfalso. revert Fe. unfold first_row.
      destruct (filter _ _) as [|[d' ps'] rest] eqn:E; [|discriminate].
      apply in_map_iff in He. destruct He as ([d pe] & Hd & Hin). simpl in Hd. subst d.
      assert (H' : In (e, pe) (filter (fun row => fst row =? e) (price_rows df))).
      { apply filter_In. split; [exact Hin|]. simpl. apply Z.eqb_refl. }
      rewrite E in H'. destruct H'.
  - exfalso. revert Fs. unfold first_row.
    destruct (filter _ _) as [|[d' ps'] rest] eqn:E; [|discriminate].
    apply in_map_iff in Hs. destruct Hs as ([d ps] & Hd & Hin). simpl in Hd. subst d.
    assert (H' : In (s, ps) (filter (fun row => fst row =? s) (price_rows df))).
    { apply filter_In. split; [exact Hin|]. simpl. apply Z.eqb_refl. }
    rewrite E in H'. destruct H'.
Qed.

(** C1. For every entity the Return Calculator's AnnualReturn is exactly
    [(EndPrice / StartPrice) - 1], one binary64 quotient and one binary64
    difference, with no factor 100 and no annualisation; a start price
    of 150 with an end price of 160 gives a value within 1e-4 of 0.0667,
    and 800 with 810 a value within 1e-4 of 0.0125. *)
Theorem C1_annual_return_two_point
    (df : PriceFrame) (s e : Timestamp) (rets : list Returns.row) :
  return_calculator df s e = Ok rets ->
  forall r, In r rets ->
    (exists p q,
        Returns.StartPrice r = PyFloat p /\ Returns.EndPrice r = PyFloat q /\
        Returns.AnnualReturn r = PyFloat (sub (div q p) (of_Z 1)))
    /\ (Returns.StartPrice r = PyFloat (of_Z 150) ->
        Returns.EndPrice r = PyFloat (of_Z 160) ->
        cell_within (Returns.AnnualReturn r) (667 # 10000) (1 # 10000) = true)
    /\ (Returns.StartPrice r = PyFloat (of_Z 800) ->
        Returns.EndPrice r = PyFloat (of_Z 810) ->
        cell_within (Returns.AnnualReturn r) (125 # 10000) (1 # 10000) = true).
Proof.
  intros H r Hr.
  destruct (return_calculator_Ok _ _ _ _ H) as (ps & pe & _ & _ & ->).
  destruct (rows_of_In _ _ _ _ Hr) as (p & q & _ & _ & _ & Hp & Hq & Ha).
  split; [now exists p, q|].
  rewrite Hp, Hq, Ha.
  split; intros [= ->] [= ->]; vm_compute; reflexivity.
Qed.

Lemma C1_annual_return_two_point_witness :
  return_calculator intro_prices start_date end_date = Ok [intro_AAPL; intro_TSLA]
  /\ cell_within (Returns.AnnualReturn intro_AAPL) (667 # 10000) (1 # 10000) = true
  /\ cell_within (Returns.AnnualReturn intro_TSLA) (125 # 10000) (1 # 10000) = true.
Proof.
  assert (H : return_calculator intro_prices start_date end_date
              = Ok [intro_AAPL; intro_TSLA]) by (vm_compute; reflexivity).
  split; [exact H|]. split.
  - apply (C1_annual_return_two_point _ _ _ _ H intro_AAPL); simpl; auto.
  - apply (C1_annual_return_two_point _ _ _ _ H intro_TSLA); simpl; auto.
Defined.

(** C3. When a requested date is absent from the price table the Return
    Calculator fails: [.iloc[0]] on the empty selection raises (Python's
    [IndexError], the failure the specification names MissingDateError).
    When it returns, every start price is a cell of a row dated exactly the
    start date and every end price a cell of a row dated exactly the end
    date: no other row stands in. *)
Theorem C3_missing_date_fails (df : PriceFrame) (s e : Timestamp) :
  (~ In s (map fst (price_rows df)) \/ ~ In e (map fst (price_rows df)) ->
   return_calculator df s e = Raise IndexError)
  /\ (forall rets, return_calculator df s e = Ok rets ->
      exists ps pe,
        In (s, ps) (price_rows df) /\ In (e, pe) (price_rows df) /\
        forall r, In r rets ->
          exists p q, In p ps /\ In q pe /\
            Returns.StartPrice r = PyFloat p /\ Returns.EndPrice r = PyFloat q).
Proof.
  split.
  - intros H. unfold return_calculator. rewrite !iloc0_select.
    destruct H as [H|H]; apply first_row_None in H; rewrite H; simpl.
    + reflexivity.
    + now destruct (first_row df s).
  - intros rets H.
    destruct (return_calculator_Ok _ _ _ _ H) as (ps & pe & Hs & He & ->).
    exists ps, pe. repeat split; try now apply first_row_In.
    intros r Hr.
    destruct (rows_of_In _ _ _ _ Hr) as (p & q & ? & ? & _ & ? & ? & _).
    now exists p, q.
Qed.

Lemma C3_missing_date_fails_witness :
  return_calculator intro_prices (to_datetime 2023 1 2) end_date = Raise IndexError
  /\ return_calculator intro_prices start_date (to_datetime 2024 8 31) = Raise IndexError.
Proof.
  split.
  - apply (proj1 (C3_missing_date_fails intro_prices (to_datetime 2023 1 2) end_date)).
    left. vm_compute. intuition discriminate.
  - apply (proj1 (C3_missing_date_fails intro_prices start_date (to_datetime 2024 8 31))).
    right. vm_compute. intuition discriminate.
Defined.

(* ------------------------------------------------------------------ *)
(** ** The Merger/Cleaner *)

Lemma mapM_Ok {A B : Type} (f : A -> result B) (g : A -> B) (l : list A) :
  (forall a, In a l -> f a = Ok (g a)) -> mapM f l = Ok (map g l).
Proof.
  induction l as [|a l IH]; intros H; simpl; [reflexivity|].
  rewrite (H a) by now left. simpl.
  rewrite IH by (intros; apply H; now right). reflexivity.
Qed.

Lemma to_numeric_cell_coerce (o : pyobj) :
  to_numeric_cell errors_coerce o = Ok (coerced o).
Proof.
  destruct o as [f|s|t]; simpl; try reflexivity.
  now destruct (Parse.float_of_string s).
Qed.

Lemma to_numeric_coerce (column : list pyobj) :
  to_numeric errors_coerce column = Ok (map coerced column).
Proof.
  apply mapM_Ok. intros; apply to_numeric_cell_coerce.
Qed.

(** *** The characters of a text that is read as a number *)















(** Assigning a column computed row by row. *)
Lemma setitem_map set (g : Final.row -> float) (df : list Final.row) :
  setitem set df (map g df) = map (fun r => set r (PyFloat (g r))) df.
Proof.
  induction df as [|r df IH]; simpl; [reflexivity|]. now rewrite IH.
Qed.

(** Assigning one column leaves every other column as it was. *)
Lemma setitem_frame {A : Type} set (get : Final.row -> A) :
  (forall r v, get (set r v) = get r) ->
  forall df column, map get (setitem set df column) = map get df.
Proof.
  intros H. induction df as [|r df IH]; intros column; simpl; [reflexivity|].
  destruct column; simpl; now rewrite H, IH.
Qed.

Lemma coerce_numeric_eq (df : list Final.row) :
  coerce_numeric df = Ok (map clean_row df).
Proof.
  unfold coerce_numeric.
  rewrite to_numeric_coerce; cbn [bind]. rewrite map_map, setitem_map.
  set (df1 := map _ df).
  rewrite to_numeric_coerce; cbn [bind]. rewrite map_map, setitem_map.
  set (df2 := map _ df1).
  rewrite to_numeric_coerce; cbn [bind]. rewrite map_map, setitem_map.
  subst df2 df1. rewrite !map_map. reflexivity.
Qed.


(** C10. The coercion step changes only the totalEsg, AnnualReturn and
    PriceDifference columns: it returns a frame whose Symbol, StartPrice
    and EndPrice columns are, row by row, those of the frame it was
    given. *)
Theorem C10_coercion_frame (df_final_filtered : list Final.row) :
  exists cleaned,
    coerce_numeric df_final_filtered = Ok cleaned
    /\ map Final.Symbol cleaned = map Final.Symbol df_final_filtered
    /\ map Final.StartPrice cleaned = map Final.StartPrice df_final_filtered
    /\ map Final.EndPrice cleaned = map Final.EndPrice df_final_filtered.
Proof.
  unfold coerce_numeric.
  rewrite to_numeric_coerce; cbn [bind].
  rewrite to_numeric_coerce; cbn [bind].
  rewrite to_numeric_coerce; cbn [bind].
  eexists. split; [reflexivity|].
  repeat split; rewrite !setitem_frame by reflexivity; reflexivity.
Qed.

Lemma merge_In (L : list Esg.row) (R : list Returns.row) l r :
  In (l, r) (merge L R) <->
  In l L /\ In r R /\ Returns.Symbol r = Esg.Symbol l.
Proof.
  unfold merge. rewrite in_flat_map. split.
  - intros (l' & Hl & H). apply in_map_iff in H.
    destruct H as (r' & [= -> ->] & H). apply filter_In in H.
    destruct H as [Hr E]. apply String.eqb_eq in E. auto.
  - intros (Hl & Hr & E). exists l. split; [exact Hl|].
    apply in_map. apply filter_In. split; [exact Hr|].
    now apply String.eqb_eq.
Qed.

Lemma merge_priced (L : list Esg.row) (R : list Returns.row) :
  Forall priced R -> forall lr, In lr (merge L R) -> priced (snd lr).
Proof.
  intros H [l r] Hlr. apply merge_In in Hlr. destruct Hlr as (_ & Hr & _).
  rewrite Forall_forall in H. now apply H.
Qed.

Lemma price_difference_priced (J : list (Esg.row * Returns.row)) :
  (forall lr, In lr J -> priced (snd lr)) ->
  price_difference J = Ok (map (fun lr => diff_cell (snd lr)) J).
Proof.
  intros H. apply mapM_Ok. intros lr Hlr.
  destruct (H lr Hlr) as (p & q & Hp & Hq).
  unfold diff_cell. now rewrite Hp, Hq.
Qed.

Lemma project_joined (J : list (Esg.row * Returns.row)) :
  project J (map (fun lr => diff_cell (snd lr)) J) = map joined_row J.
Proof.
  unfold project.
  induction J as [|[l r] J IH]; simpl; [reflexivity|]. now rewrite IH.
Qed.

(** The Merger/Cleaner returns on priced records, and what it returns. *)
Lemma merger_cleaner_priced (df_esg : list Esg.row) (df_returns : list Returns.row) :
  Forall priced df_returns ->
  merger_cleaner df_esg df_returns
  = Ok (map (fun lr => clean_row (joined_row lr)) (merge df_esg df_returns)).
Proof.
  intros H. unfold merger_cleaner.
  rewrite price_difference_priced by now apply merge_priced.
  cbn [bind]. rewrite project_joined, coerce_numeric_eq, map_map. reflexivity.
Qed.

Lemma return_calculator_priced df s e rets :
  return_calculator df s e = Ok rets -> Forall priced rets.
Proof.
  intros H. destruct (return_calculator_Ok _ _ _ _ H) as (ps & pe & _ & _ & ->).
  apply Forall_forall. intros r Hr.
  destruct (rows_of_In _ _ _ _ Hr) as (p & q & _ & _ & _ & Hp & Hq & _).
  now exists p, q.
Qed.

(** C5. The merge is an inner join on the symbol: on the records of the
    Return Calculator the Merger/Cleaner returns (it raises nothing), and
    a symbol is in the merged frame exactly when it is in the ESG table
    and in the return table. *)
Theorem C5_inner_join (df_esg : list Esg.row) (df_returns : list Returns.row) :
  Forall priced df_returns ->
  exists merged,
    merger_cleaner df_esg df_returns = Ok merged
    /\ forall sym,
        In sym (map Final.Symbol merged) <->
        In sym (map Esg.Symbol df_esg) /\ In sym (map Returns.Symbol df_returns).
Proof.
  intros H. eexists. split; [now apply merger_cleaner_priced|].
  intros sym. rewrite map_map. cbn [clean_row joined_row Final.Symbol].
  rewrite !in_map_iff. split.
  - intros ([l r] & <- & Hlr). apply merge_In in Hlr.
    destruct Hlr as (Hl & Hr & E). split.
    + now exists l.
    + exists r. now split.
  - intros ((l & <- & Hl) & (r & E & Hr)).
    exists (l, r). split; [reflexivity|]. now apply merge_In.
Qed.

Lemma C5_inner_join_witness :
  exists merged,
    merger_cleaner intro_esg [intro_AAPL; intro_TSLA] = Ok merged
    /\ forall sym,
        In sym (map Final.Symbol merged) <->
        In sym ["MSFT"; "AAPL"]%string /\ In sym ["AAPL"; "TSLA"]%string.
Proof.
  apply (C5_inner_join intro_esg [intro_AAPL; intro_TSLA]).
  repeat constructor; eexists; eexists; split; reflexivity.
Defined.

(* ------------------------------------------------------------------ *)
(** ** A start price of zero *)



Lemma merged_row_origin (L : list Esg.row) (R : list Returns.row) m :
  In m (map (fun lr => clean_row (joined_row lr)) (merge L R)) ->
  exists l r, In l L /\ In r R /\ Returns.Symbol r = Esg.Symbol l /\
    m = clean_row (joined_row (l, r)).
Proof.
  intros H. apply in_map_iff in H. destruct H as ([l r] & <- & H).
  apply merge_In in H. exists l, r. tauto.
Qed.




(* ------------------------------------------------------------------ *)
(** ** The Analyzer *)

Lemma mapM_length {A B : Type} (f : A -> result B) (l : list A) : forall l',
  mapM f l = Ok l' -> List.length l' = List.length l.
Proof.
  induction l as [|a l IH]; simpl; intros l'.
  - now intros [= <-].
  - destruct (f a); [|discriminate]. simpl.
    destruct (mapM f l) eqn:E; [|discriminate]. simpl.
    intros [= <-]. simpl. f_equal. now apply IH.
Qed.

Lemma dropna_idempotent (s : list float) : dropna (dropna s) = dropna s.
Proof.
  unfold dropna. induction s as [|x s IH]; simpl; [reflexivity|].
  destruct (isnan x) eqn:E; simpl; [exact IH|]. now rewrite E, IH.
Qed.

Lemma dropna_length (s : list float) : (List.length (dropna s) <= List.length s)%nat.
Proof. apply filter_length_le. Qed.

(** On a cleaned frame the three coerced columns are numeric. *)
Lemma numeric_cleaned (df : list Final.row) :
  numeric Final.AnnualReturn (map clean_row df)
  = Ok (map (fun r => coerced (Final.AnnualReturn r)) df)
  /\ numeric Final.totalEsg (map clean_row df)
     = Ok (map (fun r => coerced (Final.totalEsg r)) df).
Proof.
  unfold numeric.
  split; induction df as [|r df IH]; simpl; try reflexivity; now rewrite IH.
Qed.

(** C7. The last cell prints the reject line exactly when
    [p_value <= 0.05] holds in binary64 and the fail-to-reject line
    otherwise (also for a [nan] p-value); the threshold is the constant
    [0.05], the binary64 number nearest to 1/20. *)
Theorem C7_decision_threshold (p_value : float) :
  (decision p_value = reject_message <-> leb p_value alpha = true)
  /\ (decision p_value = fail_to_reject_message <-> leb p_value alpha = false)
  /\ alpha = S754_finite false 7205759403792794 (-57)
  /\ within alpha (5 # 100) (1 # 100000000000000000) = true
  /\ decision nan = fail_to_reject_message.
Proof.
  split; [|split; [|split; [|split]]].
  - unfold decision. destruct (leb p_value alpha); split; intros H;
      try reflexivity; discriminate.
  - unfold decision. destruct (leb p_value alpha); split; intros H;
      try reflexivity; discriminate.
  - vm_compute. reflexivity.
  - vm_compute. reflexivity.
  - vm_compute. reflexivity.
Qed.

(** C8. On a merged frame whose AnnualReturn column is numeric,
    [describe_return] returns; its Count is the number of values of the
    column that are not missing, at most the number of rows, and every
    statistic is the one of the non-missing values alone. *)
Theorem C8_count_non_missing
    (group : list Final.row) (column : list float) (label : string) :
  numeric Final.AnnualReturn group = Ok column ->
  exists st,
    describe_return group label = Ok st
    /\ Count st = List.length (filter (fun x => negb (isnan x)) column)
    /\ (Count st <= List.length group)%nat
    /\ st = stats_dict label (filter (fun x => negb (isnan x)) column).
Proof.
  intros H. unfold describe_return. rewrite H. cbn [bind].
  eexists. split; [reflexivity|].
  cbn [stats_dict Count]. unfold Series_count. rewrite dropna_idempotent.
  repeat split.
  rewrite <- (mapM_length _ _ _ H). apply dropna_length.
Qed.

Lemma C8_count_non_missing_witness :
  exists st,
    describe_return missing_frame "Annual Return Statics" = Ok st
    /\ Count st = 5%nat
    /\ (Count st <= 6)%nat
    /\ st = stats_dict "Annual Return Statics" (map of_Z [2; 1; 7; 4; 3]).
Proof.
  apply (C8_count_non_missing missing_frame missing_AnnualReturn).
  reflexivity.
Defined.



(** *** Missing values in the correlation *)

Lemma add_nan_r (x : float) : add x nan = nan.
Proof. now destruct x. Qed.

Lemma mul_nan_l (x : float) : mul nan x = nan.
Proof. now destruct x. Qed.

Lemma mul_nan_r (x : float) : mul x nan = nan.
Proof. now destruct x. Qed.

Lemma sub_nan_l (x : float) : sub nan x = nan.
Proof. now destruct x. Qed.

Lemma sub_nan_r (x : float) : sub x nan = nan.
Proof. now destruct x. Qed.

Lemma div_nan_l (x : float) : div nan x = nan.
Proof. now destruct x. Qed.

Lemma fold_add_nan (l : list float) : fold_left add l nan = nan.
Proof. induction l as [|x l IH]; simpl; [reflexivity|exact IH]. Qed.

Create Rewrite HintDb nan.
#[local] Hint Rewrite add_nan_r mul_nan_l mul_nan_r sub_nan_l sub_nan_r
  div_nan_l fold_add_nan : nan.

Lemma isnan_true (x : float) : isnan x = true -> x = nan.
Proof. now destruct x. Qed.

Lemma fold_add_has_nan (l : list float) : forall acc,
  has_nan l = true -> fold_left add l acc = nan.
Proof.
  induction l as [|x l IH]; simpl; intros acc H; [discriminate|].
  apply orb_true_iff in H. destruct H as [H|H]; [|now apply IH].
  apply isnan_true in H. subst. now autorewrite with nan.
Qed.

Lemma np_mean_has_nan (l : list float) : has_nan l = true -> np_mean l = nan.
Proof.
  intros H. unfold np_mean, fsum. rewrite fold_add_has_nan by exact H.
  now autorewrite with nan.
Qed.

(** A dot product whose first term has a [nan] factor. *)
Lemma dot_head_nan_l (a : list float) (y0 : float) y' :
  dot (nan :: a) (y0 :: y') = nan.
Proof. unfold dot, fsum. simpl. now autorewrite with nan. Qed.

Lemma dot_head_nan_r (x0 : float) x' (b : list float) :
  dot (x0 :: x') (nan :: b) = nan.
Proof. unfold dot, fsum. simpl. now autorewrite with nan. Qed.

Lemma has_nan_pair (a b : float) :
  has_nan [a; b] = true -> sub b a = nan.
Proof.
  unfold has_nan. simpl. rewrite orb_false_r. intros H.
  apply orb_true_iff in H. destruct H as [H|H]; apply isnan_true in H; subst.
  - apply sub_nan_r.
  - apply sub_nan_l.
Qed.

(** A missing value in either sample makes r [nan]. *)
Lemma numeric_length get (df : list Final.row) (column : list float) :
  numeric get df = Ok column -> List.length column = List.length df.
Proof. apply mapM_length. Qed.

(** With a missing value the deviations from the mean are not finite. *)
Lemma deviations_not_finite (a : list float) :
  a <> [] -> has_nan a = true ->
  forallb isfinite (map (fun v => sub v (np_mean a)) a) = false.
Proof.
  intros N H. rewrite (np_mean_has_nan _ H).
  destruct a as [|a0 a]; [congruence|].
  cbn [map forallb]. now rewrite sub_nan_r.
Qed.

(** [pearsonr] on two samples of one length, three values at least,
    neither of them constant: the two finiteness checks decide. *)
Lemma pearsonr_general btdtr (x y : list float) :
  List.length x = List.length y -> (3 <= List.length x)%nat ->
  all_equal_first x || all_equal_first y = false ->
  pearsonr btdtr x y
  = (let xm := map (fun v => sub v (np_mean x)) x in
     let ym := map (fun v => sub v (np_mean y)) y in
     normxm <- linalg_norm xm ;;
     normym <- linalg_norm ym ;;
     let r := py_max (py_min (dot (map (fun v => div v normxm) xm)
                                  (map (fun v => div v normym) ym))
                             (of_Z 1)) (of_Z (-1)) in
     let ab := sub (div (of_nat (List.length x)) (of_Z 2)) (of_Z 1) in
     Ok (r, mul (of_Z 2)
              (btdtr ab ab (mul (of_ratio false 1 2) (sub (of_Z 1) (abs r)))))).
Proof.
  intros L N C. unfold pearsonr. rewrite <- L, Nat.eqb_refl, C. cbn [negb].
  destruct (List.length x <? 2)%nat eqn:E; [apply Nat.ltb_lt in E; lia|].
  destruct (List.length x =? 2)%nat eqn:E2; [apply Nat.eqb_eq in E2; lia|].
  reflexivity.
Qed.

(** With a missing value in three pairs or more, neither sample being
    constant, the finiteness check of the norm raises. *)
Lemma pearsonr_missing_raises btdtr (x y : list float) :
  List.length x = List.length y -> (3 <= List.length x)%nat ->
  all_equal_first x || all_equal_first y = false ->
  has_nan x || has_nan y = true ->
  pearsonr btdtr x y = Raise ValueError.
Proof.
  intros L N C H. rewrite (pearsonr_general _ _ _ L N C). cbv zeta.
  unfold linalg_norm. apply orb_true_iff in H.
  destruct (forallb isfinite (map (fun v => sub v (np_mean x)) x)) eqn:Fx;
    cbn [bind]; [|reflexivity].
  destruct H as [H|H].
  - rewrite deviations_not_finite in Fx; [discriminate| |exact H].
    destruct x; [simpl in N; lia|discriminate].
  - rewrite deviations_not_finite; [reflexivity| |exact H].
    destruct y; [simpl in L; lia|discriminate].
Qed.

Lemma decision_nan : decision nan = fail_to_reject_message.
Proof. vm_compute. reflexivity. Qed.

Lemma decision_one : decision (of_Z 1) = fail_to_reject_message.
Proof. vm_compute. reflexivity. Qed.

(** With a missing value [pearsonr] never returns a number, and the
    p-value it returns never rejects. *)
Lemma pearsonr_missing btdtr (x y : list float) :
  has_nan x || has_nan y = true ->
  match pearsonr btdtr x y with
  | Ok (r, p) => r = nan /\ decision p = fail_to_reject_message
  | Raise err => err = ValueError
  end.
Proof.
  intros H.
  destruct (List.length x =? List.length y)%nat eqn:L;
    [|unfold pearsonr; now rewrite L].
  apply Nat.eqb_eq in L.
  destruct (List.length x <? 2)%nat eqn:E;
    [unfold pearsonr; rewrite <- L, Nat.eqb_refl, E; reflexivity|].
  pose proof (proj1 (Nat.ltb_ge _ _) E) as N.
  destruct (all_equal_first x || all_equal_first y) eqn:C;
    [unfold pearsonr; rewrite <- L, Nat.eqb_refl, E, C; split;
     [reflexivity|apply decision_nan]|].
  destruct (List.length x =? 2)%nat eqn:E2.
  - unfold pearsonr. rewrite <- L, Nat.eqb_refl, E, C, E2. cbn [negb].
    split; [|apply decision_one].
    apply Nat.eqb_eq in E2. rewrite E2 in L.
    destruct x as [|a [|b [|? ?]]]; try discriminate.
    destruct y as [|c [|d [|? ?]]]; try discriminate.
    cbn [nth]. apply orb_true_iff in H.
    destruct H as [H|H]; rewrite (has_nan_pair _ _ H); cbn [np_sign];
      now autorewrite with nan.
  - apply Nat.eqb_neq in E2.
    rewrite pearsonr_missing_raises; auto. lia.
Qed.

(** [pearsonr] raises nothing but [ValueError], and returns only on two
    samples of one length, two values at least. *)
Lemma pearsonr_cases btdtr (x y : list float) :
  match pearsonr btdtr x y with
  | Ok _ => List.length x = List.length y /\ (2 <= List.length x)%nat
  | Raise err => err = ValueError
  end.
Proof.
  unfold pearsonr.
  destruct (List.length x =? List.length y)%nat eqn:L; [|reflexivity].
  apply Nat.eqb_eq in L. cbn [negb].
  destruct (List.length x <? 2)%nat eqn:E; [reflexivity|].
  apply Nat.ltb_ge in E.
  destruct (all_equal_first x || all_equal_first y); [auto|].
  destruct (List.length x =? 2)%nat; [auto|].
  cbv zeta. unfold linalg_norm.
  destruct (forallb isfinite _); cbn [bind]; [|reflexivity].
  destruct (forallb isfinite _); cbn [bind]; [auto|reflexivity].
Qed.

(** The r of a result of [pearsonr] is [pearson_r]. *)
Lemma pearsonr_returns_pearson_r btdtr (x y : list float) (r p : float) :
  pearsonr btdtr x y = Ok (r, p) -> r = pearson_r x y.
Proof.
  unfold pearsonr, pearson_r.
  destruct (negb (List.length x =? List.length y)%nat); [discriminate|].
  destruct (List.length x <? 2)%nat; [discriminate|].
  destruct (all_equal_first x || all_equal_first y); [congruence|].
  destruct (List.length x =? 2)%nat; [congruence|].
  cbv zeta. unfold linalg_norm.
  destruct (forallb isfinite _); cbn [bind]; [|discriminate].
  destruct (forallb isfinite _); cbn [bind]; [|discriminate].
  congruence.
Qed.

(** The last cell on two numeric columns. *)
Lemma correlation_test_numeric btdtr (df : list Final.row) (x y : list float) :
  numeric Final.totalEsg df = Ok x ->
  numeric Final.AnnualReturn df = Ok y ->
  correlation_test btdtr df
  = (rp <- pearsonr btdtr x y ;; Ok (fst rp, snd rp, decision (snd rp))).
Proof. intros Hx Hy. unfold correlation_test. now rewrite Hx, Hy. Qed.

Lemma complete_pairs_all (x : list float) : forall y,
  has_nan x = false -> has_nan y = false -> complete_pairs x y = combine x y.
Proof.
  unfold complete_pairs, has_nan.
  induction x as [|a x IH]; intros [|b y]; simpl; try reflexivity.
  intros Hx Hy. apply orb_false_iff in Hx. apply orb_false_iff in Hy.
  destruct Hx as [-> Hx], Hy as [-> Hy]. simpl. f_equal. now apply IH.
Qed.

Lemma split_combine_eq (x : list float) : forall y : list float,
  List.length x = List.length y ->
  map fst (combine x y) = x /\ map snd (combine x y) = y.
Proof.
  induction x as [|a x IH]; intros [|b y]; simpl; try discriminate; auto.
  intros [= L]. destruct (IH _ L) as [-> ->]. auto.
Qed.

(** C2, as the code has it. The correlation step hands the two whole
    columns to [pearsonr], row by row, and sets no pair aside.  When no
    value is missing its result is that of Pearson's test on all the
    pairs.  When a totalEsg or an AnnualReturn is missing, the step does
    not compute r over the other pairs: it raises [ValueError], or the r
    it returns is [nan]. *)
Theorem C2_no_pair_excluded
    (btdtr : float -> float -> float -> float)
    (df : list Final.row) (x y : list float) :
  numeric Final.totalEsg df = Ok x ->
  numeric Final.AnnualReturn df = Ok y ->
  (has_nan x || has_nan y = false ->
   correlation_test btdtr df
   = (rp <- pearsonr btdtr (map fst (complete_pairs x y))
                           (map snd (complete_pairs x y)) ;;
      Ok (fst rp, snd rp, decision (snd rp))))
  /\ (has_nan x || has_nan y = true ->
      match correlation_test btdtr df with
      | Ok (r, _, _) => r = nan
      | Raise err => err = ValueError
      end).
Proof.
  intros Hx Hy.
  rewrite (correlation_test_numeric _ _ _ _ Hx Hy). split.
  - intros H. apply orb_false_iff in H. destruct H as [Nx Ny].
    rewrite (complete_pairs_all _ _ Nx Ny).
    destruct (split_combine_eq x y) as [-> ->]; [|reflexivity].
    rewrite (numeric_length _ _ _ Hx). symmetry. apply (numeric_length _ _ _ Hy).
  - intros H. pose proof (pearsonr_missing btdtr x y H) as M.
    destruct (pearsonr btdtr x y) as [[r p]|err]; [apply M|exact M].
Qed.

Lemma C2_no_pair_excluded_witness :
  match correlation_test (fun _ _ t => t) missing_frame with
  | Ok (r, _, _) => r = nan
  | Raise err => err = ValueError
  end.
Proof.
  apply (proj2 (C2_no_pair_excluded (fun _ _ t => t) missing_frame
                  missing_totalEsg missing_AnnualReturn eq_refl eq_refl)).
  reflexivity.
Defined.

(** C2, as the claim states it, fails. The preprocessing of the two
    tables above gives six rows, one with a missing totalEsg (the ["N/A"]
    of C) and one with a missing AnnualReturn (E).  The four pairs without
    a missing value have r = 0.529..., whatever the beta integral is; on
    the six rows the correlation step does not return it: it raises
    [ValueError] (an r it returned would be [nan]). *)
Lemma C2_counterexample :
  preprocessing missing_esg missing_prices = Ok missing_frame
  /\ numeric Final.totalEsg missing_frame = Ok missing_totalEsg
  /\ numeric Final.AnnualReturn missing_frame = Ok missing_AnnualReturn
  /\ complete_pairs missing_totalEsg missing_AnnualReturn
     = [(of_Z 1, of_Z 2); (of_Z 2, of_Z 1); (of_Z 3, of_Z 4); (of_Z 5, of_Z 3)]
  /\ (forall btdtr, exists r p,
        pearsonr btdtr [of_Z 1; of_Z 2; of_Z 3; of_Z 5]
                       [of_Z 2; of_Z 1; of_Z 4; of_Z 3] = Ok (r, p)
        /\ within r (529 # 1000) (1 # 1000) = true)
  /\ (forall btdtr,
        match correlation_test btdtr missing_frame with
        | Ok (r, _, _) => r = nan
        | Raise err => err = ValueError
        end).
Proof.
  split; [vm_compute; reflexivity|].
  split; [vm_compute; reflexivity|].
  split; [vm_compute; reflexivity|].
  split; [vm_compute; reflexivity|].
  split.
  - intros btdtr. eexists. eexists. split.
    + rewrite pearsonr_general; [|reflexivity|simpl; lia|reflexivity].
      cbv zeta. unfold linalg_norm.
      replace (forallb isfinite
                 (map (fun v => sub v (np_mean [of_Z 1; of_Z 2; of_Z 3; of_Z 5]))
                      [of_Z 1; of_Z 2; of_Z 3; of_Z 5])) with true
        by (vm_compute; reflexivity).
      cbn [bind].
      replace (forallb isfinite
                 (map (fun v => sub v (np_mean [of_Z 2; of_Z 1; of_Z 4; of_Z 3]))
                      [of_Z 2; of_Z 1; of_Z 4; of_Z 3])) with true
        by (vm_compute; reflexivity).
      cbn [bind]. reflexivity.
    + vm_compute. reflexivity.
  - intros btdtr.
    rewrite (correlation_test_numeric btdtr missing_frame
               missing_totalEsg missing_AnnualReturn eq_refl eq_refl).
    rewrite pearsonr_missing_raises; try reflexivity. simpl. lia.
Qed.

(* ------------------------------------------------------------------ *)
(** * Further properties of the pipeline *)

(** ** The preprocessing cell as a whole *)

Lemma first_row_Some df d :
  In d (dates df) -> exists ps, first_row df d = Some ps.
Proof.
  unfold dates, first_row. intros H. apply in_map_iff in H.
  destruct H as ([d' ps] & Hd & H). simpl in Hd. subst d'.
  destruct (filter _ _) as [|[d' ps'] rest] eqn:E.
  - assert (H' : In (d, ps) (filter (fun row => fst row =? d) (price_rows df))).
    { apply filter_In. split; [exact H|]. simpl. apply Z.eqb_refl. }
    rewrite E in H'. destruct H'.
  - now exists ps'.
Qed.

Lemma first_row_dates df d ps : first_row df d = Some ps -> In d (dates df).
Proof.
  intros H. apply first_row_In in H. unfold dates.
  now apply (in_map fst) in H.
Qed.

(** X1. In the frame the preprocessing cell ends with, every row is
    consistent with its two prices: AnnualReturn is still
    [(EndPrice / StartPrice) - 1] and PriceDifference is
    [EndPrice - StartPrice]; the merge, the projection and the coercion
    change neither. *)
Theorem X1_final_rows_consistent
    (df_esg : list Esg.row) (df_prices : PriceFrame) (merged : list Final.row) :
  preprocessing df_esg df_prices = Ok merged ->
  forall m, In m merged ->
    exists p q,
      Final.StartPrice m = PyFloat p /\ Final.EndPrice m = PyFloat q
      /\ Final.AnnualReturn m = PyFloat (sub (div q p) (of_Z 1))
      /\ Final.PriceDifference m = PyFloat (sub q p).
Proof.
  unfold preprocessing, df_returns.
  destruct (return_calculator df_prices start_date end_date) as [rets|] eqn:E;
    [|discriminate].
  cbn [bind].
  rewrite merger_cleaner_priced by (eapply return_calculator_priced; eassumption).
  intros [= <-] m Hm.
  destruct (merged_row_origin _ _ _ Hm) as (l & r & _ & Hr & _ & ->).
  destruct (return_calculator_Ok _ _ _ _ E) as (ps & pe & _ & _ & ->).
  destruct (rows_of_In _ _ _ _ Hr) as (p & q & _ & _ & _ & Hp & Hq & Ha).
  exists p, q.
  cbn [clean_row joined_row Final.StartPrice Final.EndPrice Final.AnnualReturn
       Final.PriceDifference fst snd].
  unfold diff_cell. rewrite Hp, Hq, Ha. cbn [coerced]. auto.
Qed.

Lemma X1_final_rows_consistent_witness :
  exists m,
    preprocessing intro_esg intro_prices = Ok [m]
    /\ exists p q,
        Final.StartPrice m = PyFloat p /\ Final.EndPrice m = PyFloat q
        /\ Final.AnnualReturn m = PyFloat (sub (div q p) (of_Z 1))
        /\ Final.PriceDifference m = PyFloat (sub q p).
Proof.
  eexists. split; [vm_compute; reflexivity|].
  eapply (X1_final_rows_consistent intro_esg intro_prices).
  - vm_compute. reflexivity.
  - left. reflexivity.
Defined.

(** X2. On a rectangular price table that has a price column and holds
    both dates, the Return Calculator returns one record for each column
    after ["Date"], in the order of the columns: the date column itself
    gives no record. *)
Theorem X2_one_record_per_column (df : PriceFrame) (s e : Timestamp) :
  rectangular df -> price_symbols df <> [] ->
  In s (dates df) -> In e (dates df) ->
  exists rets,
    return_calculator df s e = Ok rets
    /\ map Returns.Symbol rets = price_symbols df.
Proof.
  intros Hr Hn Hs He.
  destruct (first_row_Some _ _ Hs) as (ps & Hps).
  destruct (first_row_Some _ _ He) as (pe & Hpe).
  destruct (return_calculator_total df s e ps pe Hr Hn Hps Hpe) as [H1 H2].
  eexists. split; eassumption.
Qed.

Lemma X2_one_record_per_column_witness :
  exists rets,
    return_calculator missing_prices start_date end_date = Ok rets
    /\ map Returns.Symbol rets = ["A"; "B"; "C"; "D"; "E"; "F"]%string.
Proof.
  apply (X2_one_record_per_column missing_prices start_date end_date).
  - repeat constructor.
  - discriminate.
  - left. reflexivity.
  - right. left. reflexivity.
Defined.

(** X3. On a rectangular price table the preprocessing cell returns
    exactly when 2023-01-03 and 2024-08-30 are both dates of the table and
    the table has a price column, whatever the ESG table is.  It raises
    [IndexError] when one of the dates is absent, [TypeError] when both
    dates are there and ["Date"] is the only column, and nothing else. *)
Theorem X3_preprocessing_returns_iff
    (df_esg : list Esg.row) (df_prices : PriceFrame) :
  rectangular df_prices ->
  match preprocessing df_esg df_prices with
  | Ok _ =>
      In start_date (dates df_prices) /\ In end_date (dates df_prices)
      /\ price_symbols df_prices <> []
  | Raise err =>
      (err = IndexError
       /\ (~ In start_date (dates df_prices) \/ ~ In end_date (dates df_prices)))
      \/ (err = TypeError
          /\ In start_date (dates df_prices) /\ In end_date (dates df_prices)
          /\ price_symbols df_prices = [])
  end.
Proof.
  intros Hr. unfold preprocessing, df_returns.
  destruct (return_calculator df_prices start_date end_date) as [rets|err] eqn:E;
    cbn [bind].
  - rewrite merger_cleaner_priced
      by (eapply return_calculator_priced; eassumption).
    destruct (return_calculator_Ok _ _ _ _ E) as (ps & pe & Hs & He & _).
    repeat split; try (eapply first_row_dates; eassumption).
    eapply return_calculator_has_symbols; eassumption.
  - destruct (in_dec Z.eq_dec start_date (dates df_prices)) as [Hs|Hs].
    + destruct (in_dec Z.eq_dec end_date (dates df_prices)) as [He|He].
      * destruct (price_symbols df_prices) as [|s0 sym] eqn:Hn.
        -- rewrite (return_calculator_date_only _ _ _ Hn Hs He) in E.
           injection E as <-. right. auto.
        -- destruct (first_row_Some _ _ Hs) as (ps & Hps).
           destruct (first_row_Some _ _ He) as (pe & Hpe).
           assert (Hn' : price_symbols df_prices <> []) by congruence.
           destruct (return_calculator_total _ _ _ _ _ Hr Hn' Hps Hpe) as [H _].
           congruence.
      * left. revert E. unfold return_calculator. rewrite !iloc0_select.
        rewrite (first_row_None _ _ He).
        destruct (first_row df_prices start_date); cbn [bind]; intros [= <-]; auto.
    + left. revert E. unfold return_calculator. rewrite !iloc0_select.
      rewrite (first_row_None _ _ Hs). cbn [bind]. intros [= <-]. auto.
Qed.

Lemma X3_preprocessing_returns_iff_witness :
  (In start_date (dates intro_prices) /\ In end_date (dates intro_prices)
   /\ price_symbols intro_prices <> [])
  /\ ((IndexError = IndexError
       /\ (~ In start_date (dates january_prices)
           \/ ~ In end_date (dates january_prices)))
      \/ (IndexError = TypeError
          /\ In start_date (dates january_prices)
          /\ In end_date (dates january_prices)
          /\ price_symbols january_prices = []))
  /\ ((TypeError = IndexError
       /\ (~ In start_date (dates date_only_prices)
           \/ ~ In end_date (dates date_only_prices)))
      \/ (TypeError = TypeError
          /\ In start_date (dates date_only_prices)
          /\ In end_date (dates date_only_prices)
          /\ price_symbols date_only_prices = [])).
Proof.
  split; [|split].
  - apply (X3_preprocessing_returns_iff intro_esg intro_prices).
    repeat constructor.
  - apply (X3_preprocessing_returns_iff intro_esg january_prices).
    repeat constructor.
  - apply (X3_preprocessing_returns_iff intro_esg date_only_prices).
    repeat constructor.
Defined.

(** ** The order and the number of the merged rows *)

Lemma has_return_false (R : list Returns.row) (s : string) :
  ~ In s (map Returns.Symbol R) -> has_return R s = false.
Proof.
  intros H. unfold has_return.
  destruct (existsb _ R) eqn:E; [|reflexivity].
  apply existsb_exists in E. destruct E as (r & Hr & E).
  apply String.eqb_eq in E. exfalso. apply H. subst s. now apply in_map.
Qed.

(** With one record per symbol, a symbol selects one record or none. *)
Lemma select_symbol_unique (R : list Returns.row) (s : string) :
  NoDup (map Returns.Symbol R) ->
  List.length (filter (fun r => String.eqb (Returns.Symbol r) s) R)
  = if has_return R s then 1%nat else 0%nat.
Proof.
  induction R as [|r R IH]; simpl; intros H; [reflexivity|].
  inversion H as [|? ? Hn Hd]; subst.
  destruct (String.eqb (Returns.Symbol r) s) eqn:E; simpl.
  - apply String.eqb_eq in E. subst s.
    rewrite IH by assumption. now rewrite has_return_false.
  - now apply IH.
Qed.

Lemma merge_symbols (L : list Esg.row) (R : list Returns.row) :
  NoDup (map Returns.Symbol R) ->
  map (fun lr => Esg.Symbol (fst lr)) (merge L R)
  = filter (has_return R) (map Esg.Symbol L).
Proof.
  intros H. unfold merge.
  induction L as [|l L IH]; simpl; [reflexivity|].
  rewrite map_app, IH, map_map. cbn [fst].
  pose proof (select_symbol_unique R (Esg.Symbol l) H) as Hl.
  destruct (filter (fun r => String.eqb (Returns.Symbol r) (Esg.Symbol l)) R)
    as [|r [|r' F]]; destruct (has_return R (Esg.Symbol l));
    simpl in Hl; try discriminate; reflexivity.
Qed.

(** X4. When the return table has one record per symbol, the merged
    frame lists the symbols of the ESG table that have a return record,
    in the order of the ESG table and as often as the ESG table has them:
    it has no more rows than the ESG table, and no symbol twice unless the
    ESG table has it twice. *)
Theorem X4_merge_follows_esg_order
    (df_esg : list Esg.row) (df_returns : list Returns.row) :
  Forall priced df_returns ->
  NoDup (map Returns.Symbol df_returns) ->
  exists merged,
    merger_cleaner df_esg df_returns = Ok merged
    /\ map Final.Symbol merged
       = filter (has_return df_returns) (map Esg.Symbol df_esg)
    /\ (List.length merged <= List.length df_esg)%nat
    /\ (NoDup (map Esg.Symbol df_esg) -> NoDup (map Final.Symbol merged)).
Proof.
  intros Hp Hd. eexists. split; [now apply merger_cleaner_priced|].
  assert (E : map Final.Symbol
                (map (fun lr => clean_row (joined_row lr)) (merge df_esg df_returns))
              = filter (has_return df_returns) (map Esg.Symbol df_esg)).
  { rewrite map_map. cbn [clean_row joined_row Final.Symbol].
    now apply merge_symbols. }
  split; [exact E|]. split.
  - rewrite <- (length_map Final.Symbol), E.
    rewrite <- (length_map Esg.Symbol df_esg). apply filter_length_le.
  - intros H. rewrite E. now apply NoDup_filter.
Qed.

Lemma X4_merge_follows_esg_order_witness :
  exists merged,
    merger_cleaner intro_esg [intro_AAPL; intro_TSLA] = Ok merged
    /\ map Final.Symbol merged = ["AAPL"]%string
    /\ (List.length merged <= 2)%nat
    /\ (NoDup ["MSFT"; "AAPL"]%string -> NoDup (map Final.Symbol merged)).
Proof.
  apply (X4_merge_follows_esg_order intro_esg [intro_AAPL; intro_TSLA]).
  - repeat constructor; eexists; eexists; split; reflexivity.
  - repeat constructor; simpl; intuition discriminate.
Defined.

(** ** The Analyzer on a cleaned frame *)

Lemma coerce_numeric_Ok (df g : list Final.row) :
  coerce_numeric df = Ok g -> g = map clean_row df.
Proof. rewrite coerce_numeric_eq. now intros [= <-]. Qed.

Lemma clean_row_idempotent (r : Final.row) : clean_row (clean_row r) = clean_row r.
Proof. reflexivity. Qed.

(** X5. The three [to_numeric] lines are idempotent: run on a frame they
    have already cleaned, they return that frame unchanged. *)
Theorem X5_coercion_idempotent (df cleaned : list Final.row) :
  coerce_numeric df = Ok cleaned -> coerce_numeric cleaned = Ok cleaned.
Proof.
  intros H. apply coerce_numeric_Ok in H. subst cleaned.
  rewrite coerce_numeric_eq, map_map. f_equal.
Qed.

Lemma X5_coercion_idempotent_witness :
  coerce_numeric missing_frame = Ok missing_frame.
Proof.
  apply (X5_coercion_idempotent missing_frame). vm_compute. reflexivity.
Defined.

(** X6. [describe_return] returns on every frame the coercion has
    produced (its AnnualReturn column holds numbers only), under the label
    it is given, and counts at most one value per row. *)
Theorem X6_describe_return_on_cleaned
    (df cleaned : list Final.row) (label : string) :
  coerce_numeric df = Ok cleaned ->
  exists st,
    describe_return cleaned label = Ok st
    /\ Label st = label
    /\ (Count st <= List.length df)%nat.
Proof.
  intros H. apply coerce_numeric_Ok in H. subst cleaned.
  unfold describe_return. rewrite (proj1 (numeric_cleaned df)). cbn [bind].
  eexists. split; [reflexivity|]. split; [reflexivity|].
  cbn [stats_dict Count]. unfold Series_count. rewrite dropna_idempotent.
  rewrite <- (length_map (fun r => coerced (Final.AnnualReturn r)) df).
  apply dropna_length.
Qed.

Lemma X6_describe_return_on_cleaned_witness :
  exists st,
    describe_return missing_frame "Annual Return Statics" = Ok st
    /\ Label st = "Annual Return Statics"%string
    /\ (Count st <= 6)%nat.
Proof.
  apply (X6_describe_return_on_cleaned missing_frame missing_frame).
  vm_compute. reflexivity.
Defined.

(** X7. On a frame the coercion has produced the last cell raises
    nothing but [ValueError], and raises it whenever the frame has fewer
    than two rows (none or one); when it returns, the frame has two rows
    at least and the line printed is the decision for the p-value
    returned. *)
Theorem X7_correlation_needs_two_rows
    (btdtr : float -> float -> float -> float) (df cleaned : list Final.row) :
  coerce_numeric df = Ok cleaned ->
  match correlation_test btdtr cleaned with
  | Ok (_, p, verdict) => (2 <= List.length df)%nat /\ verdict = decision p
  | Raise err => err = ValueError
  end
  /\ ((List.length df < 2)%nat ->
      correlation_test btdtr cleaned = Raise ValueError).
Proof.
  intros H. apply coerce_numeric_Ok in H. subst cleaned.
  destruct (numeric_cleaned df) as [Hy Hx].
  rewrite (correlation_test_numeric _ _ _ _ Hx Hy).
  match goal with |- context [pearsonr btdtr ?a ?b] =>
    pose proof (pearsonr_cases btdtr a b) as P;
    destruct (pearsonr btdtr a b) as [[r p]|err] end; cbn [bind fst snd].
  - destruct P as [_ P]. rewrite length_map in P. split; [auto|]. intros N. lia.
  - subst err. auto.
Qed.

Lemma X7_correlation_needs_two_rows_witness :
  correlation_test (fun _ _ t => t)
    [cleaned_row "A" (of_Z 100) (of_Z 300) (of_Z 2) (of_Z 1)]
  = Raise ValueError.
Proof.
  apply (X7_correlation_needs_two_rows (fun _ _ t => t)
           [cleaned_row "A" (of_Z 100) (of_Z 300) (of_Z 2) (of_Z 1)]
           [cleaned_row "A" (of_Z 100) (of_Z 300) (of_Z 2) (of_Z 1)]).
  - vm_compute. reflexivity.
  - simpl. lia.
Defined.

Lemma dropna_all_nan (column : list float) :
  forallb isnan column = true -> dropna column = [].
Proof.
  unfold dropna. induction column as [|x c IH]; simpl; [reflexivity|].
  intros H. apply andb_true_iff in H. destruct H as [Hx Hc].
  rewrite Hx. simpl. now apply IH.
Qed.

(** X8. When no row has a return (the frame is empty, or every
    AnnualReturn is missing), [describe_return] still returns: the count
    is 0 and every statistic is [nan]. *)
Theorem X8_describe_return_without_values
    (group : list Final.row) (column : list float) (label : string) :
  numeric Final.AnnualReturn group = Ok column ->
  forallb isnan column = true ->
  describe_return group label = Ok (empty_stats label).
Proof.
  intros H Hn. unfold describe_return. rewrite H. cbn [bind].
  rewrite (dropna_all_nan _ Hn). vm_compute. reflexivity.
Qed.

Lemma X8_describe_return_without_values_witness :
  describe_return [] "none" = Ok (empty_stats "none")
  /\ describe_return [cleaned_row "E" nan (of_Z 600) nan (of_Z 4)] "none"
     = Ok (empty_stats "none").
Proof.
  split.
  - apply (X8_describe_return_without_values [] []); reflexivity.
  - apply (X8_describe_return_without_values
             [cleaned_row "E" nan (of_Z 600) nan (of_Z 4)] [nan]); reflexivity.
Defined.

(** X9. A missing value never leads to a rejection: when some totalEsg
    or some AnnualReturn of the frame is missing, the last cell either
    raises [ValueError], or reports r = [nan] and prints the
    fail-to-reject line, whatever the other rows hold and whatever the
    beta integral is. *)
Theorem X9_missing_value_never_rejects
    (btdtr : float -> float -> float -> float)
    (df : list Final.row) (x y : list float) :
  numeric Final.totalEsg df = Ok x ->
  numeric Final.AnnualReturn df = Ok y ->
  has_nan x || has_nan y = true ->
  match correlation_test btdtr df with
  | Ok (r, _, verdict) => r = nan /\ verdict = fail_to_reject_message
  | Raise err => err = ValueError
  end.
Proof.
  intros Hx Hy H.
  rewrite (correlation_test_numeric _ _ _ _ Hx Hy).
  pose proof (pearsonr_missing btdtr x y H) as M.
  destruct (pearsonr btdtr x y) as [[r p]|err]; cbn [bind fst snd]; exact M.
Qed.

Lemma X9_missing_value_never_rejects_witness :
  (forall btdtr,
     correlation_test btdtr
       [cleaned_row "A" (of_Z 100) (of_Z 300) (of_Z 2) (of_Z 1);
        cleaned_row "E" nan (of_Z 600) nan (of_Z 4)]
     = Ok (nan, of_Z 1, fail_to_reject_message))
  /\ match correlation_test (fun _ _ t => t) missing_frame with
     | Ok (r, _, verdict) => r = nan /\ verdict = fail_to_reject_message
     | Raise err => err = ValueError
     end.
Proof.
  split.
  - intros btdtr. vm_compute. reflexivity.
  - apply (X9_missing_value_never_rejects (fun _ _ t => t) missing_frame
             missing_totalEsg missing_AnnualReturn); reflexivity.
Defined.

(** ** Which rows of the price table count *)

Lemma filter_of_filter {A : Type} (f g : A -> bool) (l : list A) :
  (forall a, f a = true -> g a = true) ->
  filter f (filter g l) = filter f l.
Proof.
  intros H. induction l as [|a l IH]; simpl; [reflexivity|].
  destruct (g a) eqn:G; simpl.
  - destruct (f a); now rewrite IH.
  - destruct (f a) eqn:F; [|exact IH]. apply H in F. congruence.
Qed.

Lemma first_row_keep_dates df s e d :
  d = s \/ d = e -> first_row (keep_dates df s e) d = first_row df d.
Proof.
  intros H. unfold first_row, keep_dates. cbn [price_rows].
  rewrite filter_of_filter; [reflexivity|].
  intros [d' ps] E. simpl in *. apply Z.eqb_eq in E. subst d'.
  destruct H as [->| ->]; rewrite Z.eqb_refl; [reflexivity|apply orb_true_r].
Qed.

(** X10. Only the rows of the two dates count: the Return Calculator
    gives the same result, or the same failure, on the price table and on
    the table reduced to the rows dated the start or the end date. *)
Theorem X10_other_dates_do_not_count (df : PriceFrame) (s e : Timestamp) :
  return_calculator (keep_dates df s e) s e = return_calculator df s e.
Proof.
  unfold return_calculator. rewrite !iloc0_select.
  rewrite !first_row_keep_dates by auto. reflexivity.
Qed.

Lemma select_none (pre : list (Timestamp * list float)) (d : Timestamp) :
  ~ In d (map fst pre) ->
  @filter (Timestamp * list float) (fun row => fst row =? d) pre = [].
Proof.
  induction pre as [|[d' ps'] pre IH]; simpl; intros H; [reflexivity|].
  destruct (d' =? d) eqn:D.
  - apply Z.eqb_eq in D. tauto.
  - apply IH. tauto.
Qed.

Lemma first_row_first df d pre ps post :
  price_rows df = pre ++ (d, ps) :: post ->
  ~ In d (map fst pre) ->
  first_row df d = Some ps.
Proof.
  intros E H. unfold first_row.
  pose proof (select_none _ _ H) as N.
  rewrite E, filter_app. unfold Timestamp in *. rewrite N. simpl.
  now rewrite Z.eqb_refl.
Qed.

Lemma rows_of_columns sym : forall ps pe,
  List.length ps = List.length sym -> List.length pe = List.length sym ->
  map Returns.StartPrice (rows_of sym ps pe) = map PyFloat ps
  /\ map Returns.EndPrice (rows_of sym ps pe) = map PyFloat pe.
Proof.
  induction sym as [|s sym IH]; intros [|p ps] [|q pe]; simpl; try discriminate;
    auto.
  intros [= Hp] [= Hq]. destruct (IH _ _ Hp Hq) as [-> ->]. auto.
Qed.

(** X11. When a date occurs on several rows, the first of them in file
    order is the one used: on a rectangular table with a price column the
    StartPrice column is the first row dated the start date and the
    EndPrice column the first row dated the end date. *)
Theorem X11_first_row_of_a_date
    (df : PriceFrame) (s e : Timestamp)
    (pre post pre' post' : list (Timestamp * list float)) (ps pe : list float) :
  rectangular df -> price_symbols df <> [] ->
  price_rows df = pre ++ (s, ps) :: post -> ~ In s (map fst pre) ->
  price_rows df = pre' ++ (e, pe) :: post' -> ~ In e (map fst pre') ->
  exists rets,
    return_calculator df s e = Ok rets
    /\ map Returns.StartPrice rets = map PyFloat ps
    /\ map Returns.EndPrice rets = map PyFloat pe.
Proof.
  intros Hr Hn Es Hs Ee He.
  pose proof (first_row_first _ _ _ _ _ Es Hs) as Fs.
  pose proof (first_row_first _ _ _ _ _ Ee He) as Fe.
  destruct (return_calculator_total _ _ _ _ _ Hr Hn Fs Fe) as [H _].
  eexists. split; [exact H|].
  unfold rectangular in Hr. rewrite Forall_forall in Hr.
  apply rows_of_columns.
  - apply (Hr (s, ps)). now apply first_row_In.
  - apply (Hr (e, pe)). now apply first_row_In.
Qed.

Lemma X11_first_row_of_a_date_witness :
  exists rets,
    return_calculator repeated_prices start_date end_date = Ok rets
    /\ map Returns.StartPrice rets = map PyFloat [of_Z 150; of_Z 800]
    /\ map Returns.EndPrice rets = map PyFloat [of_Z 160; of_Z 810].
Proof.
  apply (X11_first_row_of_a_date repeated_prices start_date end_date
           [(to_datetime 2023 1 2, [of_Z 149; of_Z 795])]
           [(to_datetime 2023 1 3, [of_Z 151; of_Z 801]);
            (to_datetime 2024 8 30, [of_Z 160; of_Z 810])]
           [(to_datetime 2023 1 2, [of_Z 149; of_Z 795]);
            (to_datetime 2023 1 3, [of_Z 150; of_Z 800]);
            (to_datetime 2023 1 3, [of_Z 151; of_Z 801])]
           []).
  - repeat constructor.
  - discriminate.
  - reflexivity.
  - vm_compute. intuition discriminate.
  - reflexivity.
  - vm_compute. intuition discriminate.
Defined.

(** ** Missing prices *)

Lemma return_of_missing_price (p q : float) :
  isnan p || isnan q = true ->
  sub (div q p) (of_Z 1) = nan /\ sub q p = nan.
Proof.
  intros H. apply orb_true_iff in H.
  destruct H as [H|H]; apply isnan_true in H; subst.
  - split; [|apply sub_nan_r].
    replace (div q nan) with nan by now destruct q. apply sub_nan_l.
  - split; now autorewrite with nan.
Qed.

(** X12. A missing price gives a missing return: in the frame the
    preprocessing cell ends with, a row whose StartPrice or EndPrice is
    [nan] has a [nan] AnnualReturn and a [nan] PriceDifference. *)
Theorem X12_missing_price_missing_return
    (df_esg : list Esg.row) (df_prices : PriceFrame) (merged : list Final.row) :
  preprocessing df_esg df_prices = Ok merged ->
  forall m p q, In m merged ->
    Final.StartPrice m = PyFloat p -> Final.EndPrice m = PyFloat q ->
    isnan p || isnan q = true ->
    Final.AnnualReturn m = PyFloat nan /\ Final.PriceDifference m = PyFloat nan.
Proof.
  unfold preprocessing, df_returns.
  destruct (return_calculator df_prices start_date end_date) as [rets|] eqn:E;
    [|discriminate].
  cbn [bind].
  rewrite merger_cleaner_priced by (eapply return_calculator_priced; eassumption).
  intros [= <-] m p q Hm.
  destruct (merged_row_origin _ _ _ Hm) as (l & r & _ & Hr & _ & ->).
  destruct (return_calculator_Ok _ _ _ _ E) as (ps & pe & _ & _ & ->).
  destruct (rows_of_In _ _ _ _ Hr) as (p' & q' & _ & _ & _ & Hp & Hq & Ha).
  cbn [clean_row joined_row Final.StartPrice Final.EndPrice Final.AnnualReturn
       Final.PriceDifference fst snd].
  unfold diff_cell. rewrite Hp, Hq, Ha. cbn [coerced].
  intros [= ->] [= ->] H.
  destruct (return_of_missing_price _ _ H) as [-> ->]. auto.
Qed.

Lemma X12_missing_price_missing_return_witness :
  Final.AnnualReturn (cleaned_row "E" nan (of_Z 600) nan (of_Z 4)) = PyFloat nan
  /\ Final.PriceDifference (cleaned_row "E" nan (of_Z 600) nan (of_Z 4))
     = PyFloat nan.
Proof.
  apply (X12_missing_price_missing_return missing_esg missing_prices missing_frame)
    with (p := nan) (q := of_Z 600).
  - vm_compute. reflexivity.
  - do 4 right. left. reflexivity.
  - reflexivity.
  - reflexivity.
  - reflexivity.
Defined.

(** ** Pearson's r *)

Lemma SFcompare_antisym (x y : float) :
  SFcompare y x = option_map CompOpp (SFcompare x y).
Proof.
  destruct x as [sx|sx| |sx mx ex], y as [sy|sy| |sy my ey]; simpl;
    try reflexivity;
    try (destruct sx; reflexivity); try (destruct sy; reflexivity);
    try (destruct sx, sy; reflexivity).
  assert (A : Pos.compare_cont Eq my mx = CompOpp (Pos.compare_cont Eq mx my))
    by (symmetry; apply (Pos.compare_cont_antisym mx my Eq)).
  destruct sx, sy; simpl; try reflexivity;
    rewrite (Z.compare_antisym ex ey), A;
    destruct (ex ?= ey); simpl; try reflexivity;
    destruct (Pos.compare_cont Eq mx my); reflexivity.
Qed.

Lemma SFcompare_numbers (x y : float) :
  isnan x = false -> isnan y = false -> SFcompare x y <> None.
Proof.
  destruct x as [sx|sx| |sx mx ex], y as [sy|sy| |sy my ey]; simpl;
    try discriminate; intros _ _;
    try (destruct sx; discriminate); try (destruct sy; discriminate);
    try (destruct sx, sy; discriminate).
Qed.

(** Not above [c], for a number: at most [c]. *)
Lemma not_ltb_leb (c r : float) :
  isnan r = false -> isnan c = false -> ltb c r = false -> leb r c = true.
Proof.
  intros Nr Nc. unfold ltb, leb, SFltb, SFleb.
  rewrite (SFcompare_antisym c r).
  pose proof (SFcompare_numbers c r Nc Nr) as C.
  destruct (SFcompare c r) as [[| |]|]; simpl; congruence.
Qed.

Lemma clip_in_unit_range (r : float) :
  let c := py_max (py_min r (of_Z 1)) (of_Z (-1)) in
  isnan c = true \/ in_unit_range c = true.
Proof.
  cbv zeta. destruct (isnan r) eqn:N.
  - apply isnan_true in N. subst. left. reflexivity.
  - right. unfold py_min.
    destruct (ltb (of_Z 1) r) eqn:E1; [vm_compute; reflexivity|].
    unfold py_max.
    destruct (ltb r (of_Z (-1))) eqn:E2; [vm_compute; reflexivity|].
    unfold in_unit_range. apply andb_true_iff. split.
    + now apply not_ltb_leb.
    + now apply not_ltb_leb.
Qed.

Lemma np_sign_cases (v : float) :
  np_sign v = nan \/ np_sign v = S754_zero false
  \/ np_sign v = of_Z 1 \/ np_sign v = of_Z (-1).
Proof. destruct v as [s|[|]| |[|] m e]; simpl; auto. Qed.

(** X13. The r that the correlation step reports is [nan] or lies
    between -1 and 1: the value is clipped to that range. *)
Theorem X13_r_is_nan_or_in_range (x y : list float) :
  isnan (pearson_r x y) = true \/ in_unit_range (pearson_r x y) = true.
Proof.
  unfold pearson_r.
  destruct (all_equal_first x || all_equal_first y); [now left|].
  destruct (List.length x =? 2)%nat.
  - destruct (np_sign_cases (sub (nth 1 x nan) (nth 0 x nan))) as [->|[->|[->| ->]]];
      destruct (np_sign_cases (sub (nth 1 y nan) (nth 0 y nan))) as [->|[->|[->| ->]]];
      vm_compute; auto.
  - apply clip_in_unit_range.
Qed.

Lemma mul_comm (a b : float) : mul a b = mul b a.
Proof.
  unfold mul.
  destruct a as [sa|sa| |sa ma ea], b as [sb|sb| |sb mb eb]; simpl;
    try reflexivity; try (now rewrite xorb_comm).
  now rewrite xorb_comm, Pos.mul_comm, Z.add_comm.
Qed.

Lemma dot_comm (a : list float) : forall b, dot a b = dot b a.
Proof.
  unfold dot. intros b. f_equal. revert b.
  induction a as [|u a IH]; intros [|v b]; simpl; try reflexivity.
  now rewrite mul_comm, IH.
Qed.

(** X14. Pearson's test does not depend on the order of its two
    arguments: with the two columns swapped, [pearsonr] returns the same
    r and the same p-value, or fails in the same way. *)
Theorem X14_pearsonr_symmetric
    (btdtr : float -> float -> float -> float) (x y : list float) :
  pearsonr btdtr y x = pearsonr btdtr x y.
Proof.
  unfold pearsonr. rewrite (Nat.eqb_sym (List.length y) (List.length x)).
  destruct (List.length x =? List.length y)%nat eqn:L; [|reflexivity].
  apply Nat.eqb_eq in L. cbn [negb]. rewrite <- L.
  destruct (List.length x <? 2)%nat; [reflexivity|].
  rewrite (orb_comm (all_equal_first y)).
  destruct (all_equal_first x || all_equal_first y); [reflexivity|].
  destruct (List.length x =? 2)%nat; [now rewrite mul_comm|].
  cbv zeta. unfold linalg_norm.
  destruct (forallb isfinite (map (fun v => sub v (np_mean x)) x));
    destruct (forallb isfinite (map (fun v => sub v (np_mean y)) y));
    cbn [bind]; try reflexivity.
  now rewrite dot_comm.
Qed.

(** ** The least and the greatest return *)

Ltac compare_cases :=
  repeat match goal with
         | H : context [Z.compare ?a ?b] |- _ =>
             destruct (Z.compare_spec a b); simpl in H; try discriminate
         | |- context [Z.compare ?a ?b] =>
             destruct (Z.compare_spec a b); simpl
         | H : context [Pos.compare_cont Eq ?a ?b] |- _ =>
             change (Pos.compare_cont Eq a b) with (Pos.compare a b) in H;
             destruct (Pos.compare_spec a b); simpl in H; try discriminate
         | |- context [Pos.compare_cont Eq ?a ?b] =>
             change (Pos.compare_cont Eq a b) with (Pos.compare a b);
             destruct (Pos.compare_spec a b); simpl
         end;
  try reflexivity; try discriminate; try lia.

Lemma ltb_irrefl (x : float) : ltb x x = false.
Proof.
  unfold ltb, SFltb.
  destruct x as [s|s| |s m e]; simpl; try reflexivity;
    destruct s; simpl; try reflexivity; compare_cases.
Qed.

Lemma ltb_trans (a b c : float) :
  ltb a b = true -> ltb b c = true -> ltb a c = true.
Proof.
  unfold ltb, SFltb.
  destruct a as [sa|sa| |sa ma ea], b as [sb|sb| |sb mb eb],
           c as [sc|sc| |sc mc ec]; simpl; try discriminate;
    try destruct sa; try destruct sb; try destruct sc; simpl;
    try discriminate; try reflexivity; intros H1 H2; compare_cases.
Qed.

Lemma ltb_negtrans (a x b : float) :
  isnan x = false -> ltb a b = true -> ltb a x = true \/ ltb x b = true.
Proof.
  unfold ltb, SFltb.
  destruct a as [sa|sa| |sa ma ea], b as [sb|sb| |sb mb eb],
           x as [sx|sx| |sx mx ex]; simpl; try discriminate;
    try destruct sa; try destruct sb; try destruct sx; simpl;
    try discriminate; intros _ H; auto; compare_cases; auto;
    try (left; reflexivity); try (right; reflexivity).
Qed.

Lemma fold_min_spec (l : list float) : forall x,
  (forall v, In v (x :: l) -> isnan v = false) ->
  In (fold_left (fun m y => if ltb y m then y else m) l x) (x :: l)
  /\ forall v, In v (x :: l) ->
       ltb v (fold_left (fun m y => if ltb y m then y else m) l x) = false.
Proof.
  induction l as [|y l IH]; intros x N; cbn [fold_left].
  - split; [now left|]. intros v [<-|[]]. apply ltb_irrefl.
  - set (m1 := if ltb y x then y else x).
    assert (N1 : forall v, In v (m1 :: l) -> isnan v = false).
    { intros v [<-|H]; [|apply N; simpl; auto].
      subst m1. destruct (ltb y x); apply N; simpl; auto. }
    destruct (IH m1 N1) as [Hin Hle]. set (m := fold_left _ l m1) in *.
    assert (Hm1 : ltb m1 m = false) by (apply Hle; now left).
    split.
    + destruct Hin as [E|Hin]; [|simpl; auto].
      rewrite <- E. subst m1. destruct (ltb y x); simpl; auto.
    + intros v [<-|[<-|H]]; [| |apply Hle; now right].
      * subst m1. destruct (ltb y x) eqn:E; [|exact Hm1].
        destruct (ltb x m) eqn:F; [|reflexivity].
        now rewrite (ltb_trans _ _ _ E F) in Hm1.
      * subst m1. destruct (ltb y x) eqn:E; [exact Hm1|].
        destruct (ltb y m) eqn:F; [|reflexivity].
        destruct (ltb_negtrans y x m) as [G|G]; try congruence.
        apply N. now left.
Qed.

Lemma fold_max_spec (l : list float) : forall x,
  (forall v, In v (x :: l) -> isnan v = false) ->
  In (fold_left (fun m y => if ltb m y then y else m) l x) (x :: l)
  /\ forall v, In v (x :: l) ->
       ltb (fold_left (fun m y => if ltb m y then y else m) l x) v = false.
Proof.
  induction l as [|y l IH]; intros x N; cbn [fold_left].
  - split; [now left|]. intros v [<-|[]]. apply ltb_irrefl.
  - set (m1 := if ltb x y then y else x).
    assert (N1 : forall v, In v (m1 :: l) -> isnan v = false).
    { intros v [<-|H]; [|apply N; simpl; auto].
      subst m1. destruct (ltb x y); apply N; simpl; auto. }
    destruct (IH m1 N1) as [Hin Hle]. set (m := fold_left _ l m1) in *.
    assert (Hm1 : ltb m m1 = false) by (apply Hle; now left).
    split.
    + destruct Hin as [E|Hin]; [|simpl; auto].
      rewrite <- E. subst m1. destruct (ltb x y); simpl; auto.
    + intros v [<-|[<-|H]]; [| |apply Hle; now right].
      * subst m1. destruct (ltb x y) eqn:E; [|exact Hm1].
        destruct (ltb m x) eqn:F; [|reflexivity].
        now rewrite (ltb_trans _ _ _ F E) in Hm1.
      * subst m1. destruct (ltb x y) eqn:E; [exact Hm1|].
        destruct (ltb m y) eqn:F; [|reflexivity].
        destruct (ltb_negtrans m x y) as [G|G]; try congruence.
        apply N. now left.
Qed.

Lemma dropna_In (column : list float) (v : float) :
  In v (dropna column) <-> In v column /\ isnan v = false.
Proof.
  unfold dropna. rewrite filter_In. now destruct (isnan v).
Qed.

(** X15. The Min and the Max that [describe_return] reports are returns
    of the column, and no return of the column that is not missing is
    below Min or above Max. *)
Theorem X15_min_max_bound
    (group : list Final.row) (column : list float) (label : string)
    (st : SummaryStats) :
  numeric Final.AnnualReturn group = Ok column ->
  describe_return group label = Ok st ->
  forall v, In v column -> isnan v = false ->
    In (Min st) column /\ In (Max st) column
    /\ ltb v (Min st) = false /\ ltb (Max st) v = false.
Proof.
  intros H. unfold describe_return. rewrite H. cbn [bind].
  intros [= <-] v Hv Nv.
  cbn [stats_dict Min Max]. unfold Series_min, Series_max.
  rewrite dropna_idempotent.
  assert (Hd : In v (dropna column)) by now apply dropna_In.
  assert (N : forall w, In w (dropna column) -> isnan w = false)
    by (intros w Hw; now apply dropna_In in Hw).
  destruct (dropna column) as [|x l] eqn:D; [destruct Hd|].
  destruct (fold_min_spec l x N) as [Imin Lmin].
  destruct (fold_max_spec l x N) as [Imax Lmax].
  rewrite <- D in Imin, Imax.
  apply dropna_In in Imin. apply dropna_In in Imax.
  repeat split; try tauto; auto.
Qed.

Lemma X15_min_max_bound_witness :
  exists st,
    describe_return missing_frame "Annual Return Statics" = Ok st
    /\ Min st = of_Z 1 /\ Max st = of_Z 7
    /\ ltb (of_Z 4) (Min st) = false /\ ltb (Max st) (of_Z 4) = false.
Proof.
  eexists. split; [vm_compute; reflexivity|].
  split; [vm_compute; reflexivity|]. split; [vm_compute; reflexivity|].
  eapply (X15_min_max_bound missing_frame missing_AnnualReturn
            "Annual Return Statics" _ eq_refl).
  - vm_compute. reflexivity.
  - do 3 right. left. reflexivity.
  - reflexivity.
Defined.

(** ** The decision and the columns the Analyzer reads *)

Lemma leb_trans (a b c : float) :
  leb a b = true -> leb b c = true -> leb a c = true.
Proof.
  unfold leb, SFleb.
  destruct a as [sa|sa| |sa ma ea], b as [sb|sb| |sb mb eb],
           c as [sc|sc| |sc mc ec]; simpl; try discriminate;
    try destruct sa; try destruct sb; try destruct sc; simpl;
    try discriminate; try reflexivity; intros H1 H2; compare_cases.
Qed.

(** X16. The decision is monotone in the p-value: when the cell prints
    the reject line for a p-value, it prints it for every p-value that is
    not larger. *)
Theorem X16_decision_monotone (p p' : float) :
  leb p p' = true ->
  decision p' = reject_message -> decision p = reject_message.
Proof.
  unfold decision. intros H.
  destruct (leb p' alpha) eqn:E; [|discriminate]. intros _.
  now rewrite (leb_trans _ _ _ H E).
Qed.

Lemma X16_decision_monotone_witness :
  decision (Parse.of_decimal false 1 (-2)) = reject_message.
Proof.
  apply (X16_decision_monotone _ (Parse.of_decimal false 3 (-2)));
    vm_compute; reflexivity.
Defined.

Lemma numeric_column get (df : list Final.row) :
  numeric get df
  = mapM (fun o => match o with PyFloat f => Ok f | _ => Raise TypeError end)
         (map get df).
Proof.
  unfold numeric. induction df as [|r df IH]; simpl; [reflexivity|].
  now rewrite IH.
Qed.

(** X17. The Analyzer reads two columns only: two frames with the same
    AnnualReturn column have the same [describe_return], and if they also
    have the same totalEsg column the last cell gives the same r, p-value
    and verdict, or the same failure, on both. *)
Theorem X17_analyzer_reads_two_columns
    (btdtr : float -> float -> float -> float)
    (df df' : list Final.row) (label : string) :
  map Final.AnnualReturn df = map Final.AnnualReturn df' ->
  describe_return df label = describe_return df' label
  /\ (map Final.totalEsg df = map Final.totalEsg df' ->
      correlation_test btdtr df = correlation_test btdtr df').
Proof.
  intros H. split.
  - unfold describe_return. now rewrite !numeric_column, H.
  - intros H'. unfold correlation_test. now rewrite !numeric_column, H, H'.
Qed.

Lemma X17_analyzer_reads_two_columns_witness :
  describe_return
    [cleaned_row "A" (of_Z 100) (of_Z 300) (of_Z 2) (of_Z 1)] "r"
  = describe_return
      [cleaned_row "B" (of_Z 50) (of_Z 150) (of_Z 2) (of_Z 1)] "r"
  /\ correlation_test (fun _ _ t => t)
       [cleaned_row "A" (of_Z 100) (of_Z 300) (of_Z 2) (of_Z 1)]
     = correlation_test (fun _ _ t => t)
         [cleaned_row "B" (of_Z 50) (of_Z 150) (of_Z 2) (of_Z 1)].
Proof.
  destruct (X17_analyzer_reads_two_columns (fun _ _ t => t)
              [cleaned_row "A" (of_Z 100) (of_Z 300) (of_Z 2) (of_Z 1)]
              [cleaned_row "B" (of_Z 50) (of_Z 150) (of_Z 2) (of_Z 1)]
              "r" eq_refl) as [H1 H2].
  split; [exact H1|]. apply H2. reflexivity.
Defined.

